(** * Student database management system: record store, status policy,
      and the import/export and form-validation code that drives them.

    The development embeds [database.py], [config.py] and the parts of
    [student-gui.py] that touch the store: [import_csv], [export_csv], and
    the handlers of the window (the add, update and delete dialogs with
    their checks, the click on the table, the search and the filling of
    the table), as functions on the store, the items of the table and the
    remembered record.

    Conventions of the embedding.
    - Python [str] is a Rocq [string]; a character stands for a code point
      below 256, so [\d] is the ten ASCII digits and the whitespace of
      [str.strip] is the set given by [py_isspace].
    - Python [float] is a primitive binary64 [float]; [int] is [Z].
    - Exceptions are values of [exn]; a call returns [result A].
    - The SQLite file is a [database]: the rows of the [student] table in
      rowid order and the AUTOINCREMENT counter.  A [connection] carries the
      committed file and the open transaction.  The statements keep the
      values they are given.  sqlite3 does so for an integer of 64 bits and
      for a double other than NaN and [-0.0]: it refuses a larger integer
      at the bind with OverflowError, stores NaN as NULL and gives [-0.0]
      back as [0.0].  These three are outside the model, and the
      properties that depend on them are stated for values that are kept
      ([sqlite_integer], [sqlite_same], [kept]).  An engine failure other
      than a constraint violation does not occur.
    - [AVG] adds the values in double precision, in row order, as SQLite
      does before version 3.44; the compensation term of later versions
      is not modelled.
    - The builtins [float], [int] and [round] are modelled on the text
      grammar and the correctly rounded conversions of CPython; the
      integer digit limit of recent interpreters is outside the model. *)

From Stdlib Require Import ZArith QArith List String Ascii Bool Lia Floats.
From Stdlib Require Import Permutation Sorted DecimalString.
Import ListNotations.

#[local] Set Warnings "-inexact-float".
#[local] Open Scope string_scope.
#[local] Open Scope Z_scope.

(** ** Python values, exceptions and results *)

Module Py.

(** The heads of the messages the program raises. *)
Inductive message : Type :=
  | StudentIdIsEmpty | NameIsEmpty | DuplicateStudentId
  | DatabaseConnectionError | DatabaseInitializationError
  | DatabaseInsertError | DatabaseReadError
  | EmptySearch | StudentNotFound | DatabaseSearchError
  | RecordNotFound | DatabaseUpdateError
  | InvalidRecordId | DatabaseDeleteError | StatisticsError
  | YearInvalidFormat
  | InvalidLiteral.

Inductive exn : Type :=
  | ValueError (m : message)
  | RuntimeError (m : message)
  | TypeError
  | AttributeError
  | OverflowError
  | IntegrityError            (* sqlite3.IntegrityError *)
  | SqliteError.              (* any other sqlite3.Error *)

Inductive result (A : Type) : Type :=
  | Ok (a : A)
  | Raise (e : exn).
Arguments Ok {A} a.
Arguments Raise {A} e.

(** [isinstance(e, sqlite3.Error)] *)
Definition is_sqlite_error (e : exn) : bool :=
  match e with IntegrityError | SqliteError => true | _ => false end.

(** The values that reach [float], [int] and [str.strip] in this program. *)
Inductive value : Type :=
  | PyNone
  | PyInt (z : Z)
  | PyFloat (f : float)
  | PyStr (s : string).

(** *** Text *)

Definition code (c : ascii) : Z := Z.of_N (N_of_ascii c).

(** [c.isspace()] for a code point below 256. *)
Definition py_isspace (c : ascii) : bool :=
  let n := code c in
  ((9 <=? n) && (n <=? 13)) || ((28 <=? n) && (n <=? 32))
  || (n =? 133) || (n =? 160).

Fixpoint lstrip (s : string) : string :=
  match s with
  | String c s' => if py_isspace c then lstrip s' else s
  | EmptyString => EmptyString
  end.

Fixpoint rstrip (s : string) : string :=
  match s with
  | EmptyString => EmptyString
  | String c s' =>
      match rstrip s' with
      | EmptyString => if py_isspace c then EmptyString else String c EmptyString
      | t => String c t
      end
  end.

(** [s.strip()] *)
Definition strip (s : string) : string := rstrip (lstrip s).

(** Truth value of a [str]: the empty string is false. *)
Definition truthy (s : string) : bool :=
  match s with EmptyString => false | _ => true end.

(** [v.strip()] on a value that need not be a [str]. *)
Definition value_strip (v : value) : result string :=
  match v with
  | PyStr s => Ok (strip s)
  | _ => Raise AttributeError
  end.

(** *** Numeric text *)

(** The whitespace [int] and [float] skip around a numeral: C's [isspace],
    and the two non-ASCII spaces below 256, which are first mapped to a
    blank. *)
Definition num_isspace (c : ascii) : bool :=
  let n := code c in
  ((9 <=? n) && (n <=? 13)) || (n =? 32) || (n =? 133) || (n =? 160).

Fixpoint num_lstrip (s : string) : string :=
  match s with
  | String c s' => if num_isspace c then num_lstrip s' else s
  | EmptyString => EmptyString
  end.

Fixpoint num_rstrip (s : string) : string :=
  match s with
  | EmptyString => EmptyString
  | String c s' =>
      match num_rstrip s' with
      | EmptyString => if num_isspace c then EmptyString else String c EmptyString
      | t => String c t
      end
  end.

Definition num_strip (s : string) : string := num_rstrip (num_lstrip s).

Definition is_digit (c : ascii) : bool := (48 <=? code c) && (code c <=? 57).

Definition digit_value (c : ascii) : Z := code c - 48.

(** [digit (["_"] digit)*]: the digits read and the text left. *)
Fixpoint digitpart (s : string) : list Z * string :=
  match s with
  | String c s' =>
      if is_digit c then
        match s' with
        | String "_" (String d _ as s'') =>
            if is_digit d
            then let (ds, r) := digitpart s'' in (digit_value c :: ds, r)
            else ([digit_value c], s')
        | _ => let (ds, r) := digitpart s' in (digit_value c :: ds, r)
        end
      else ([], s)
  | EmptyString => ([], s)
  end.

Definition Z_of_digits (ds : list Z) : Z :=
  fold_left (fun acc d => 10 * acc + d) ds 0.

(** An optional sign: whether it is a minus, and the text after it. *)
Definition sign (s : string) : bool * string :=
  match s with
  | String "-" s' => (true, s')
  | String "+" s' => (false, s')
  | _ => (false, s)
  end.

(** [int(s)] for a [str], base ten; [None] is [ValueError]. *)
Definition int_of_str (s : string) : option Z :=
  let (neg, t) := sign (num_strip s) in
  match digitpart t with
  | ([], _) => None
  | (ds, EmptyString) => Some (if neg then - Z_of_digits ds else Z_of_digits ds)
  | _ => None
  end.

(** *** Binary64 *)

Definition SF64 (x : spec_float) : float := SF2Prim x.

(** The double nearest to an integer (ties to even). *)
Definition SF_of_Z (z : Z) : spec_float := binary_normalize prec emax z 0 false.

(** The double nearest to [m * 10^e], for [0 < m]. *)
Definition SF_of_decimal (neg : bool) (m : positive) (e : Z) : spec_float :=
  if 0 <=? e
  then SF_of_Z ((if neg then Zneg m else Zpos m) * 10 ^ e)
  else SFdiv prec emax (S754_finite neg m 0)
                       (S754_finite false (Z.to_pos (10 ^ (- e))) 0).

Definition lower (c : ascii) : ascii :=
  if (65 <=? code c) && (code c <=? 90)
  then ascii_of_N (N_of_ascii c + 32) else c.

Fixpoint lowercase (s : string) : string :=
  match s with
  | EmptyString => EmptyString
  | String c s' => String (lower c) (lowercase s')
  end.

(** [[sign] digitpart] after the exponent letter. *)
Definition exponent (s : string) : option Z :=
  match s with
  | EmptyString => Some 0
  | String c t =>
      if (code c =? 101) || (code c =? 69) then
        let (neg, u) := sign t in
        match digitpart u with
        | ([], _) => None
        | (ds, EmptyString) => Some (if neg then - Z_of_digits ds else Z_of_digits ds)
        | _ => None
        end
      else None
  end.

(** [float(s)] for a [str]; [None] is [ValueError]. *)
Definition float_of_str (s : string) : option float :=
  let (neg, t) := sign (num_strip s) in
  let w := lowercase t in
  if (w =? "inf")%string || (w =? "infinity")%string
  then Some (SF64 (S754_infinity neg))
  else if (w =? "nan")%string then Some (SF64 S754_nan)
  else
    let (ip, t1) := digitpart t in
    let (fp, t2) := match t1 with
                    | String "." u => digitpart u
                    | _ => ([], t1)
                    end in
    match (ip ++ fp)%list with
    | [] => None
    | ds =>
        match exponent t2 with
        | None => None
        | Some ex =>
            match Z_of_digits ds with
            | Zpos m =>
                let e := ex - Z.of_nat (List.length fp) in
                Some (SF64 (SF_of_decimal neg m e))
            | _ => Some (SF64 (S754_zero neg))
            end
        end
    end.

(** [float(v)] *)
Definition py_float (v : value) : result float :=
  match v with
  | PyNone => Raise TypeError
  | PyFloat f => Ok f
  | PyInt z =>
      match SF_of_Z z with
      | S754_infinity _ => Raise OverflowError
      | x => Ok (SF64 x)
      end
  | PyStr s =>
      match float_of_str s with
      | Some f => Ok f
      | None => Raise (ValueError InvalidLiteral)
      end
  end.

(** The integer part of a finite double, towards zero. *)
Definition trunc (s : bool) (m : positive) (e : Z) : Z :=
  let a := if 0 <=? e then Zpos m * 2 ^ e else Zpos m / 2 ^ (- e) in
  if s then - a else a.

(** [int(v)] *)
Definition py_int (v : value) : result Z :=
  match v with
  | PyNone => Raise TypeError
  | PyInt z => Ok z
  | PyFloat f =>
      match Prim2SF f with
      | S754_nan => Raise (ValueError InvalidLiteral)
      | S754_infinity _ => Raise OverflowError
      | S754_zero _ => Ok 0
      | S754_finite s m e => Ok (trunc s m e)
      end
  | PyStr s =>
      match int_of_str s with
      | Some z => Ok z
      | None => Raise (ValueError InvalidLiteral)
      end
  end.

(** The integer nearest to [num / den], ties to even, for [0 < den]. *)
Definition round_half_even (num den : Z) : Z :=
  let q := num / den in
  match (2 * (num mod den)) ?= den with
  | Lt => q
  | Gt => q + 1
  | Eq => if Z.even q then q else q + 1
  end.

(** [round(x, ndigits)] for a float and [0 <= ndigits]: the decimal with
    [ndigits] places nearest to [x] (ties to even), read back as a double. *)
Definition py_round (x : float) (ndigits : N) : float :=
  match Prim2SF x with
  | S754_finite s m e =>
      let p := 10 ^ Z.of_N ndigits in
      let n := round_half_even (Zpos m * p * 2 ^ Z.max e 0) (2 ^ Z.max (- e) 0) in
      match n with
      | Zpos n' => SF64 (SFdiv prec emax (S754_finite s n' 0)
                                         (S754_finite false (Z.to_pos p) 0))
      | _ => SF64 (S754_zero s)
      end
  | _ => x
  end.

(** Truth value of a float: [x != 0.0]. *)
Definition float_truthy (x : float) : bool := negb (PrimFloat.eqb x 0%float).

End Py.

Import Py.

(** ** A state and exception monad *)

Definition M (S A : Type) : Type := S -> result A * S.

Definition ret {S A : Type} (a : A) : M S A := fun s => (Ok a, s).

Definition raise {S A : Type} (e : exn) : M S A := fun s => (Raise e, s).

Definition bind {S A B : Type} (m : M S A) (k : A -> M S B) : M S B :=
  fun s => match m s with
           | (Ok a, s') => k a s'
           | (Raise e, s') => (Raise e, s')
           end.

Definition lift {S A : Type} (r : result A) : M S A := fun s => (r, s).

(** [try: m  except ...: h]: [h e = None] when no clause matches [e]. *)
Definition try_except {S A : Type} (m : M S A) (h : exn -> option (M S A)) : M S A :=
  fun s => match m s with
           | (Ok a, s') => (Ok a, s')
           | (Raise e, s') =>
               match h e with
               | Some k => k s'
               | None => (Raise e, s')
               end
           end.

Declare Scope monad_scope.
Delimit Scope monad_scope with monad.
Notation "x <- m ;; k" := (bind m (fun x => k))
  (at level 61, m at next level, right associativity) : monad_scope.
Notation "m ;;; k" := (bind m (fun _ => k))
  (at level 61, right associativity) : monad_scope.
#[local] Open Scope monad_scope.

(** ** config.py *)

Module Config.

Definition CSV_COLUMNS : list string :=
  ["StudentID"; "Name"; "Age"; "Email"; "Department"; "GPA"; "GraduationYear"].

Definition DEPARTMENTS : list string :=
  ["Mathematics"; "Chemistry"; "Physics"; "Computer Science"; "Biology"].

Definition PASS_FAIL_THRESHOLD : float := 2.2.

Definition MIN_GPA : float := 0.0.
Definition MAX_GPA : float := 4.0.

End Config.

(** ** database.py *)

Module Database.

(** A row of the [student] table, columns in the order of the SELECTs. *)
Record row : Type := mkRow {
  id : Z;
  student_id : string;
  name : string;
  age : Z;
  email : string;
  department : string;
  gpa : float;
  graduation_year : Z;
  status : string
}.

(** The database file: the table in rowid order, and the largest rowid
    AUTOINCREMENT has handed out. *)
Record database : Type := mkDatabase {
  student : list row;
  sqlite_sequence : Z
}.

(** What [init_database] creates on a fresh file. *)
Definition empty_database : database :=
  {| student := []; sqlite_sequence := 0 |}.

(** An open connection: the committed file and the pending transaction. *)
Record connection : Type := mkConnection {
  file : database;
  txn : database
}.

Definition connect (db : database) : connection := {| file := db; txn := db |}.

Definition commit : M connection unit :=
  fun c => (Ok tt, {| file := txn c; txn := txn c |}).

Definition rollback (c : connection) : connection :=
  {| file := file c; txn := file c |}.

Definition close (c : connection) : database := file c.

(** [get_db_connection], a generator under [@contextmanager]: the body of
    the [with] statement runs at the [yield], and an exception of the body
    is raised there, inside the [try].  So [except sqlite3.Error] meets the
    sqlite3 errors of the body first: it rolls back and raises a
    RuntimeError, and the handlers around the [with] statement see that
    RuntimeError only.  Any other exception passes through; [finally]
    closes the connection, which drops what was not committed. *)
Definition get_db_connection {A : Type} (body : M connection A) : M database A :=
  fun db =>
    match body (connect db) with
    | (Ok a, conn) => (Ok a, close conn)
    | (Raise e, conn) =>
        if is_sqlite_error e
        then (Raise (RuntimeError DatabaseConnectionError), close (rollback conn))
        else (Raise e, close conn)
    end.

(** [calculate_status] *)
Definition calculate_status (gpa : value) : result string :=
  match py_float gpa with
  | Ok gpa_val =>
      Ok (if (gpa_val <? Config.PASS_FAIL_THRESHOLD)%float then "FAIL" else "PASS")
  | Raise (ValueError _) | Raise TypeError => Ok "FAIL"
  | Raise e => Raise e
  end.

(** *** The SQL statements, on the pending transaction.  Each returns the
    cursor's [rowcount]. *)

(** INSERT INTO student (...) VALUES (...): UNIQUE(student_id), and a fresh
    AUTOINCREMENT id.  The row holds the values as they are bound, which
    is what the table does for integers of 64 bits and for doubles other
    than NaN and [-0.0]. *)
Definition execute_insert (student_id name : string) (age : Z)
    (email department : string) (gpa : float) (graduation_year : Z)
    (status : string) : M connection Z :=
  fun c =>
    let t := txn c in
    if existsb (fun r => (Database.student_id r =? student_id)%string) (student t)
    then (Raise IntegrityError, c)
    else
      let i := sqlite_sequence t + 1 in
      let r := mkRow i student_id name age email department gpa
                     graduation_year status in
      (Ok 1, {| file := file c;
                txn := {| student := student t ++ [r]; sqlite_sequence := i |} |}).

(** UPDATE student SET ... WHERE id=?, for values and a record id that are
    bound as they are given, as in the INSERT. *)
Definition execute_update (student_id name : string) (age : Z)
    (email department : string) (gpa : float) (graduation_year : Z)
    (status : string) (record_id : Z) : M connection Z :=
  fun c =>
    let t := txn c in
    let hit := filter (fun r => id r =? record_id) (student t) in
    match hit with
    | [] => (Ok 0, c)
    | _ =>
        if existsb (fun r => negb (id r =? record_id)
                             && (Database.student_id r =? student_id)%string)
                   (student t)
        then (Raise IntegrityError, c)
        else
          let set r :=
            if id r =? record_id
            then mkRow (id r) student_id name age email department gpa
                       graduation_year status
            else r in
          (Ok (Z.of_nat (List.length hit)),
           {| file := file c;
              txn := {| student := map set (student t);
                        sqlite_sequence := sqlite_sequence t |} |})
    end.

(** DELETE FROM student WHERE id = ?, for a record id of 64 bits. *)
Definition execute_delete (record_id : Z) : M connection Z :=
  fun c =>
    let t := txn c in
    let hit := filter (fun r => id r =? record_id) (student t) in
    (Ok (Z.of_nat (List.length hit)),
     {| file := file c;
        txn := {| student := filter (fun r => negb (id r =? record_id)) (student t);
                  sqlite_sequence := sqlite_sequence t |} |}).

(** ORDER BY name: ascending by code points; rows of equal name stay in
    rowid order. *)
Fixpoint insert_by_name (r : row) (l : list row) : list row :=
  match l with
  | [] => [r]
  | x :: l' => if (name x <? name r)%string then x :: insert_by_name r l' else r :: l
  end.

Definition order_by_name (rows : list row) : list row :=
  fold_right insert_by_name [] rows.

(** SELECT ... FROM student ORDER BY name *)
Definition select_all : M connection (list row) :=
  fun c => (Ok (order_by_name (student (txn c))), c).

(** SELECT ... FROM student WHERE student_id = ?, then [fetchone()] *)
Definition select_by_student_id (student_id : string) : M connection (option row) :=
  fun c => (Ok (find (fun r => (Database.student_id r =? student_id)%string)
                     (student (txn c))), c).

(** SELECT COUNT( * ) FROM student *)
Definition select_count : M connection Z :=
  fun c => (Ok (Z.of_nat (List.length (student (txn c)))), c).

(** SELECT COUNT( * ) FROM student WHERE status=? *)
Definition select_count_status (s : string) : M connection Z :=
  fun c => (Ok (Z.of_nat (List.length
                  (filter (fun r => (status r =? s)%string) (student (txn c))))), c).

(** AVG over a column of doubles.  A NULL, which is what a NaN bound to
    the column is stored as, is passed over; with no value left the
    result is NULL.  The values are added in row order and the sum is
    divided by their number; a result that is NaN is NULL as well. *)
Definition sql_avg (xs : list float) : option float :=
  match filter (fun x => negb (is_nan x)) xs with
  | [] => None
  | ys =>
      let a := (fold_left PrimFloat.add ys 0%float
                / SF64 (SF_of_Z (Z.of_nat (List.length ys))))%float in
      if is_nan a then None else Some a
  end.

(** SELECT AVG(gpa) FROM student *)
Definition select_avg_gpa : M connection (option float) :=
  fun c => (Ok (sql_avg (map gpa (student (txn c)))), c).

(** [not s or not s.strip()] *)
Definition blank (s : string) : bool :=
  negb (truthy s) || negb (truthy (strip s)).

(** [add_student_record] *)
Definition add_student_record (student_id name : string) (age : Z)
    (email department : string) (gpa : float) (graduation_year : Z)
    : M database bool :=
  if blank student_id then raise (ValueError StudentIdIsEmpty) else
  if blank name then raise (ValueError NameIsEmpty) else
  status <- lift (calculate_status (PyFloat gpa)) ;;
  try_except (get_db_connection
         (execute_insert student_id name age email department gpa
                         graduation_year status ;;;
          commit ;;;
          ret true))
      (fun e => match e with
                | IntegrityError => Some (raise (ValueError DuplicateStudentId))
                | SqliteError => Some (raise (RuntimeError DatabaseInsertError))
                | _ => None
                end).

(** [view_all_records] *)
Definition view_all_records : M database (list row) :=
  try_except (get_db_connection select_all)
      (fun e => if is_sqlite_error e
                then Some (raise (RuntimeError DatabaseReadError)) else None).

(** [search_by_student_id] *)
Definition search_by_student_id (student_id : string) : M database row :=
  if blank student_id then raise (ValueError EmptySearch) else
  try_except (get_db_connection
         (result <- select_by_student_id student_id ;;
          match result with
          | None => raise (ValueError StudentNotFound)
          | Some r => ret r
          end))
      (fun e => match e with
                | ValueError _ => Some (raise e)
                | _ => if is_sqlite_error e
                       then Some (raise (RuntimeError DatabaseSearchError))
                       else None
                end).

(** [update_record] *)
Definition update_record (record_id : Z) (student_id name : string) (age : Z)
    (email department : string) (gpa : float) (graduation_year : Z)
    : M database bool :=
  if blank student_id then raise (ValueError StudentIdIsEmpty) else
  if blank name then raise (ValueError NameIsEmpty) else
  status <- lift (calculate_status (PyFloat gpa)) ;;
  try_except (get_db_connection
         (rowcount <- execute_update student_id name age email department gpa
                                     graduation_year status record_id ;;
          if rowcount =? 0 then raise (ValueError RecordNotFound) else
          commit ;;;
          ret true))
      (fun e => if is_sqlite_error e
                then Some (raise (RuntimeError DatabaseUpdateError)) else None).

(** [delete_record]; [record_id] is an [int] by its type. *)
Definition delete_record (record_id : Z) : M database bool :=
  if record_id <=? 0 then raise (ValueError InvalidRecordId) else
  try_except (get_db_connection
         (rowcount <- execute_delete record_id ;;
          if rowcount =? 0 then raise (ValueError RecordNotFound) else
          commit ;;;
          ret true))
      (fun e => if is_sqlite_error e
                then Some (raise (RuntimeError DatabaseDeleteError)) else None).

(** The dictionary [get_statistics] returns. *)
Record statistics : Type := mkStatistics {
  total : Z;
  pass : Z;
  fail : Z;
  avg_gpa : float
}.

(** [get_statistics] *)
Definition get_statistics : M database statistics :=
  try_except (get_db_connection
         (total <- select_count ;;
          pass_count <- select_count_status "PASS" ;;
          fail_count <- select_count_status "FAIL" ;;
          avg <- select_avg_gpa ;;
          let avg_gpa := match avg with
                         | Some a => if float_truthy a then a else 0%float
                         | None => 0%float
                         end in
          ret {| total := total; pass := pass_count; fail := fail_count;
                 avg_gpa := py_round avg_gpa 2 |}))
      (fun e => if is_sqlite_error e
                then Some (raise (RuntimeError StatisticsError)) else None).

End Database.

Import Database.

(** ** student-gui.py: the code that reaches the store *)

Module Gui.

(** [re.match(r'^\d{4}$', s)]: four digits, then the end of the text or a
    newline that ends it. *)
Definition re_match_year (s : string) : bool :=
  match s with
  | String a (String b (String c (String d rest))) =>
      is_digit a && is_digit b && is_digit c && is_digit d
      && match rest with
         | EmptyString => true
         | String nl EmptyString => code nl =? 10
         | _ => false
         end
  | _ => false
  end.

(** The graduation-year lines of [show_add_dialog.save], repeated in
    [show_update_dialog.update]: from the text of the entry to [year]. *)
Definition year_of_entry (entry : string) : result Z :=
  let year_str := strip entry in
  if negb (re_match_year year_str)
  then Raise (ValueError YearInvalidFormat)
  else py_int (PyStr year_str).

(** *** CSV files: the rows [csv.reader] yields, each a list of fields. *)

Definition csv_rows : Type := list (list string).

(** A row of [csv.DictReader]: the bindings, the latest first. *)
Definition dict : Type := list (string * value).

Fixpoint lookup (key : string) (d : dict) : option value :=
  match d with
  | [] => None
  | (k, v) :: d' => if (k =? key)%string then Some v else lookup key d'
  end.

(** [row.get(key, default)] *)
Definition get (d : dict) (key : string) (default : value) : value :=
  match lookup key d with
  | Some v => v
  | None => default
  end.

(** [dict(zip(fieldnames, row))], then [restval] ([None]) under the field
    names the row is too short for.  Fields beyond the header go under the
    key [None], which nothing reads. *)
Fixpoint dict_row (fieldnames row : list string) (d : dict) : dict :=
  match fieldnames with
  | [] => d
  | k :: ks =>
      match row with
      | v :: vs => dict_row ks vs ((k, PyStr v) :: d)
      | [] => dict_row ks [] ((k, PyNone) :: d)
      end
  end.

(** The body of the [try] in the loop of [import_csv]: the arguments are
    evaluated left to right, then the record is added. *)
Definition import_row (row : dict) : M database bool :=
  student_id <- lift (value_strip (get row "StudentID" (PyStr ""))) ;;
  name <- lift (value_strip (get row "Name" (PyStr ""))) ;;
  age <- lift (py_int (get row "Age" (PyInt 0))) ;;
  email <- lift (value_strip (get row "Email" (PyStr ""))) ;;
  department <- lift (value_strip (get row "Department" (PyStr ""))) ;;
  gpa <- lift (py_float (get row "GPA" (PyInt 0))) ;;
  graduation_year <- lift (py_int (get row "GraduationYear" (PyInt 0))) ;;
  add_student_record student_id name age email department gpa graduation_year.

(** The [for row in csv_reader] loop; [DictReader] passes over empty rows.
    [except (ValueError, KeyError)] counts the row as skipped. *)
Fixpoint import_loop (fieldnames : list string) (rows : csv_rows)
    (imported skipped : Z) : M database (Z * Z) :=
  match rows with
  | [] => ret (imported, skipped)
  | [] :: rest => import_loop fieldnames rest imported skipped
  | row :: rest =>
      added <- try_except (import_row (dict_row fieldnames row []) ;;; ret true)
                   (fun e => match e with
                             | ValueError _ => Some (ret false)
                             | _ => None
                             end) ;;
      if added : bool
      then import_loop fieldnames rest (imported + 1) skipped
      else import_loop fieldnames rest imported (skipped + 1)
  end.

(** What [import_csv] shows when it returns. *)
Inductive import_outcome : Type :=
  | ImportCancelled
  | EmptyCsvFile
  | ImportComplete (imported skipped : Z)
  | ImportError (e : exn).

(** [import_csv]: [file_path] is the answer of the file dialog and [file]
    the rows of that file. *)
Definition import_csv (file_path : string) (file : csv_rows)
    : M database import_outcome :=
  if negb (truthy file_path) then ret ImportCancelled else
  match file with
  | [] | [] :: _ => ret EmptyCsvFile
  | fieldnames :: rows =>
      try_except (counts <- import_loop fieldnames rows 0 0 ;;
           ret (ImportComplete (fst counts) (snd counts)))
          (fun e => Some (ret (ImportError e)))
  end.

(** What [export_csv] does: the rows it writes, when it writes a file. *)
Inductive export_outcome : Type :=
  | ExportCancelled
  | NoData
  | ExportSuccess (written : list (list value))
  | ExportError (e : exn).

Definition export_fieldnames : list string :=
  ["StudentID"; "Name"; "Age"; "Email"; "Department"; "GPA";
   "GraduationYear"; "Status"].

(** [writer.writerow({...})]: the cells in the order of the field names. *)
Definition export_row (record : row) : list value :=
  [PyStr (student_id record); PyStr (name record); PyInt (age record);
   PyStr (email record); PyStr (department record); PyFloat (gpa record);
   PyInt (graduation_year record); PyStr (status record)].

(** [export_csv] *)
Definition export_csv (file_path : string) : M database export_outcome :=
  if negb (truthy file_path) then ret ExportCancelled else
  try_except (records <- view_all_records ;;
       match records with
       | [] => ret NoData
       | _ => ret (ExportSuccess (map PyStr export_fieldnames
                                  :: map export_row records))
       end)
      (fun e => Some (ret (ExportError e))).

End Gui.

Import Gui.

(** ** student-gui.py: the dialogs, the table and the selection *)

Module App.

(** The text of the entries of the add and update dialogs, by label; the
    department is the text of the combobox variable. *)
Record fields : Type := mkFields {
  Student_ID : string;
  Name : string;
  Age : string;
  Email : string;
  Department : string;
  GPA : string;
  Graduation_Year : string
}.

(** The heads of the texts the message boxes show. *)
Inductive text : Type :=
  | StudentIdRequired | NameRequired | DepartmentRequired
  | AgeInvalidFormat | InvalidGPA | GPAInvalidFormat
  | FloatMessage            (* the message of [float]'s own ValueError *)
  | Message (m : message)   (* the message of an exception of the store *)
  | EmptySearchField | NoStudentSelected.

(** What a handler shows before it returns. *)
Inductive outcome : Type :=
  | Success                       (* showinfo *)
  | Found (name : string)         (* showinfo, "Student found" *)
  | InputError (t : text)         (* showerror "Input Error" *)
  | SearchError (t : text)        (* showerror "Search Error" *)
  | DatabaseError (m : message)   (* showerror "Database Error" *)
  | DeleteError (e : exn)         (* showerror "Delete Error" *)
  | SelectionError (t : text)     (* showwarning "Selection Error" *)
  | Nothing                       (* no message box *)
  | Uncaught (e : exn).           (* the exception leaves the handler *)

(** [needle in hay] *)
Definition contains (needle hay : string) : bool :=
  match String.index 0 needle hay with
  | Some _ => true
  | None => false
  end.

(** The age lines of [save] and [update]: [int] of the entry. *)
Definition age_of_entry (entry : string) : Z + text :=
  match py_int (PyStr entry) with
  | Ok age => inl age
  | Raise _ => inr AgeInvalidFormat
  end.

(** The GPA lines of [save] and [update].  The ValueError raised for the
    range is caught by the [except] of the same [try] and raised again,
    since its message contains "Invalid GPA"; the ValueError of [float]
    carries the text of the entry, and is raised again when that text
    contains "Invalid GPA". *)
Definition gpa_of_entry (entry : string) : float + text :=
  match py_float (PyStr entry) with
  | Ok gpa =>
      if (gpa <? Config.MIN_GPA)%float || (Config.MAX_GPA <? gpa)%float
      then inr InvalidGPA
      else inl gpa
  | Raise _ =>
      if contains "Invalid GPA" entry then inr FloatMessage
      else inr GPAInvalidFormat
  end.

(** What the two [except] clauses at the end of [save] and [update] show
    for an exception of the store. *)
Definition shown (e : exn) : outcome :=
  match e with
  | ValueError m => InputError (Message m)
  | RuntimeError m => DatabaseError m
  | _ => Uncaught e
  end.

(** The [try] block of [save] up to the call of the store, which is the
    same in [update]: the checks in their order, and the arguments of the
    call.  A [raise ValueError] of the block is what [except ValueError]
    shows. *)
Definition checked (f : fields)
    : (string * string * Z * string * string * float * Z) + outcome :=
  if negb (truthy (strip (Student_ID f))) then inr (InputError StudentIdRequired)
  else if negb (truthy (strip (Name f))) then inr (InputError NameRequired)
  else if (Department f =? "Select Department")%string
  then inr (InputError DepartmentRequired)
  else
    match age_of_entry (Age f) with
    | inr t => inr (InputError t)
    | inl age =>
        match gpa_of_entry (GPA f) with
        | inr t => inr (InputError t)
        | inl gpa =>
            match year_of_entry (Graduation_Year f) with
            | Raise e => inr (shown e)
            | Ok year =>
                inl (strip (Student_ID f), strip (Name f), age,
                     strip (Email f), Department f, gpa, year)
            end
        end
    end.

(** [f"{x:.2f}"]: the decimal with two places nearest to [x], ties to
    even. *)
Definition digit_char (d : Z) : ascii := ascii_of_N (Z.to_N (48 + d)).

Definition format_2f (x : float) : string :=
  match Prim2SF x with
  | S754_nan => "nan"
  | S754_infinity s => if s then "-inf" else "inf"
  | S754_zero s => (if s then "-" else "") ++ "0.00"
  | S754_finite s m e =>
      let n := round_half_even (Zpos m * 100 * 2 ^ Z.max e 0)
                               (2 ^ Z.max (- e) 0) in
      (if s then "-" else "")
      ++ NilZero.string_of_uint (N.to_uint (Z.to_N (n / 100)))
      ++ String "." (String (digit_char (n mod 100 / 10))
                            (String (digit_char (n mod 10)) ""))
  end%string.

(** The application: the database file, the items of the table (the
    values of each, in display order), the item the table has selected,
    and the two attributes that remember the record to update or delete. *)
Record app : Type := mkApp {
  store : database;
  table : list (list value);
  selection : option nat;
  selected_record : option row;
  db_id : option Z
}.

(** The values [display_all_records] inserts for a record. *)
Definition item_values (r : row) : list value :=
  [PyStr (student_id r); PyStr (name r); PyInt (age r); PyStr (email r);
   PyStr (department r); PyStr (format_2f (gpa r));
   PyInt (graduation_year r); PyStr (status r)].

(** [values[0] == record[1]]: the first cell of an item against a student
    id; the table gives back the text it was given. *)
Definition shows (sid : string) (values : list value) : bool :=
  match values with
  | PyStr s :: _ => (sid =? s)%string
  | _ => false
  end.

(** [display_all_records]: every item is deleted, which empties the
    selection of the table, then one item is inserted per record. *)
Definition display_all_records (a : app) : app :=
  let (r, db) := view_all_records (store a) in
  {| store := db;
     table := match r with
              | Ok records => map item_values records
              | Raise _ => []
              end;
     selection := None;
     selected_record := selected_record a;
     db_id := db_id a |}.

(** [__init__], after [init_database]. *)
Definition start (db : database) : app :=
  display_all_records
    {| store := db; table := []; selection := None;
       selected_record := None; db_id := None |}.

(** The loop of [on_table_click] and of [show_context_menu]: the first
    record of [view_all_records] with the student id of the item. *)
Definition remember (values : list value) (a : app) : app :=
  let (r, db) := view_all_records (store a) in
  match r with
  | Ok records =>
      match find (fun record => shows (student_id record) values) records with
      | Some record =>
          {| store := db; table := table a; selection := selection a;
             selected_record := Some record; db_id := Some (id record) |}
      | None =>
          {| store := db; table := table a; selection := selection a;
             selected_record := selected_record a; db_id := db_id a |}
      end
  | Raise _ =>
      {| store := db; table := table a; selection := selection a;
         selected_record := selected_record a; db_id := db_id a |}
  end.

(** [on_table_click], with one item selected at most. *)
Definition on_table_click (a : app) : app :=
  match selection a with
  | None => a
  | Some item =>
      match nth_error (table a) item with
      | Some values => remember values a
      | None => a
      end
  end.

(** A click on the item at a position: the table selects it, then the
    handler runs. *)
Definition click (item : nat) (a : app) : app :=
  on_table_click
    {| store := store a; table := table a;
       selection := if item <? List.length (table a) then Some item else selection a;
       selected_record := selected_record a; db_id := db_id a |}%nat.

(** The position of the first item that shows a student id. *)
Fixpoint first_item (sid : string) (items : list (list value)) : option nat :=
  match items with
  | [] => None
  | values :: rest =>
      if shows sid values then Some 0%nat
      else option_map S (first_item sid rest)
  end.

(** [_highlight_record] *)
Definition _highlight_record (record : row) (a : app) : app :=
  match first_item (student_id record) (table a) with
  | Some item =>
      {| store := store a; table := table a; selection := Some item;
         selected_record := Some record; db_id := Some (id record) |}
  | None => a
  end.

(** [search_student], on the text of the search entry. *)
Definition search_student (search_term : string) (a : app) : outcome * app :=
  let search_term := strip search_term in
  if negb (truthy search_term) then (SearchError EmptySearchField, a) else
  let (r, db) := search_by_student_id search_term (store a) in
  let a := {| store := db; table := table a; selection := selection a;
              selected_record := selected_record a; db_id := db_id a |} in
  match r with
  | Ok record => (Found (name record), _highlight_record record a)
  | Raise (ValueError m) => (SearchError (Message m), a)
  | Raise (RuntimeError m) => (DatabaseError m, a)
  | Raise e => (Uncaught e, a)
  end.

(** [clear_search] *)
Definition clear_search (a : app) : app := display_all_records a.

(** The function [save] of [show_add_dialog], on the entries of the
    dialog. *)
Definition save (f : fields) (a : app) : outcome * app :=
  match checked f with
  | inr shown_error => (shown_error, a)
  | inl (student_id, name, age, email, department, gpa, year) =>
      let (r, db) := add_student_record student_id name age email department
                                        gpa year (store a) in
      let a := {| store := db; table := table a; selection := selection a;
                  selected_record := selected_record a; db_id := db_id a |} in
      match r with
      | Ok _ => (Success, display_all_records a)
      | Raise e => (shown e, a)
      end
  end.

(** [update_record(self.db_id, ...)]: an id that is [None] matches no
    row. *)
Definition update_record_of (record_id : option Z) (student_id name : string)
    (age : Z) (email department : string) (gpa : float) (graduation_year : Z)
    : M database bool :=
  match record_id with
  | Some i =>
      update_record i student_id name age email department gpa graduation_year
  | None =>
      if blank student_id then raise (ValueError StudentIdIsEmpty) else
      if blank name then raise (ValueError NameIsEmpty) else
      raise (ValueError RecordNotFound)
  end.

(** [show_update_dialog], then the function [update] of the dialog on its
    entries. *)
Definition update (f : fields) (a : app) : outcome * app :=
  match selected_record a with
  | None => (SelectionError NoStudentSelected, a)
  | Some _ =>
      match checked f with
      | inr shown_error => (shown_error, a)
      | inl (student_id, name, age, email, department, gpa, year) =>
          let (r, db) := update_record_of (db_id a) student_id name age email
                                          department gpa year (store a) in
          let a := {| store := db; table := table a; selection := selection a;
                      selected_record := selected_record a;
                      db_id := db_id a |} in
          match r with
          | Ok _ => (Success, display_all_records a)
          | Raise e => (shown e, a)
          end
      end
  end.

(** [delete_record(self.db_id)]: [None] is not an [int]. *)
Definition delete_record_of (record_id : option Z) : M database bool :=
  match record_id with
  | Some i => delete_record i
  | None => raise (ValueError InvalidRecordId)
  end.

(** [show_delete_dialog]; [confirm] is the answer to the question. *)
Definition show_delete_dialog (confirm : bool) (a : app) : outcome * app :=
  match selected_record a with
  | None => (SelectionError NoStudentSelected, a)
  | Some _ =>
      if confirm then
        let (r, db) := delete_record_of (db_id a) (store a) in
        let a := {| store := db; table := table a; selection := selection a;
                    selected_record := selected_record a;
                    db_id := db_id a |} in
        match r with
        | Ok _ => (Success, display_all_records a)
        | Raise e => (DeleteError e, a)
        end
      else (Nothing, a)
  end.

(** [import_csv] with its last lines: the table is filled again when the
    loop has ended, and only then. *)
Definition import_and_display (file_path : string) (file : csv_rows) (a : app)
    : import_outcome * app :=
  let (r, db) := import_csv file_path file (store a) in
  let a := {| store := db; table := table a; selection := selection a;
              selected_record := selected_record a; db_id := db_id a |} in
  match r with
  | Ok (ImportComplete imported skipped) =>
      (ImportComplete imported skipped, display_all_records a)
  | Ok shown_outcome => (shown_outcome, a)
  | Raise e => (ImportError e, a)
  end.

End App.

(** ** Definitions used to state the properties *)

(** The rational a double stands for; none for NaN and the infinities. *)
Definition Q_of_SF (x : spec_float) : option Q :=
  match x with
  | S754_zero _ => Some 0%Q
  | S754_finite s m e =>
      let n := if s then Zneg m else Zpos m in
      Some match e with
           | Zneg p => Qmake n (2 ^ p)
           | _ => inject_Z (n * 2 ^ e)
           end
  | _ => None
  end.

Definition Q_of_float (x : float) : option Q := Q_of_SF (Prim2SF x).

(** An argument [float] rejects: [None], or text that is not a numeral. *)
Definition not_a_number (v : value) : Prop :=
  match v with
  | PyNone => True
  | PyStr s => float_of_str s = None
  | _ => False
  end.

(** The stores the three mutating operations of the model produce from a
    fresh one, with any arguments; an operation that raises leaves its
    store behind as well.  It has the keys, the text and the order of
    every table the program reaches; the part of it whose rows are the
    rows of the table, value by value, is [kept] below. *)
Inductive reachable : database -> Prop :=
  | reach_init : reachable empty_database
  | reach_add db student_id name age email department gpa graduation_year :
      reachable db ->
      reachable (snd (add_student_record student_id name age email department
                                         gpa graduation_year db))
  | reach_update db record_id student_id name age email department gpa
                 graduation_year :
      reachable db ->
      reachable (snd (update_record record_id student_id name age email
                                    department gpa graduation_year db))
  | reach_delete db record_id :
      reachable db ->
      reachable (snd (delete_record record_id db)).

(** The status column is the status of the gpa column. *)
Definition status_derived (r : row) : Prop :=
  calculate_status (PyFloat (gpa r)) = Ok (status r).

(** The row an insert or an update writes. *)
Definition row_of (i : Z) (student_id name : string) (age : Z)
    (email department : string) (gpa : float) (graduation_year : Z) : row :=
  mkRow i student_id name age email department gpa graduation_year
        (if (gpa <? Config.PASS_FAIL_THRESHOLD)%float then "FAIL" else "PASS").

Definition has_student_id (sid : string) (r : row) : bool :=
  (student_id r =? sid)%string.

Definition has_id (i : Z) (r : row) : bool := id r =? i.

(** The stores of the example scenario: Ann, then Ann and Bo. *)
Definition ann_only : database :=
  snd (add_student_record "S1" "Ann" 20 "a@x.com" "Physics" 2.0 2026
                          empty_database).

Definition ann_and_bo : database :=
  snd (add_student_record "S2" "Bo" 22 "b@x.com" "Chemistry" 3.5 2025
                          ann_only).






(** The number of records with a given status. *)
Definition count_status (s : string) (db : database) : Z :=
  Z.of_nat (List.length (filter (fun r => (status r =? s)%string) (student db))).

(** Text made of whitespace only. *)
Fixpoint all_space (s : string) : bool :=
  match s with
  | EmptyString => true
  | String c s' => py_isspace c && all_space s'
  end.

(** The spec's year format: exactly four ASCII digits, and their number. *)
Definition spec_four_digits (s : string) : option Z :=
  match s with
  | String a (String b (String c (String d EmptyString))) =>
      if is_digit a && is_digit b && is_digit c && is_digit d
      then Some (1000 * digit_value a + 100 * digit_value b
                 + 10 * digit_value c + digit_value d)
      else None
  | _ => None
  end.

(** The files of the import examples. *)
Definition ann_row : list string :=
  ["S1"; "Ann"; "20"; "a@x.com"; "Physics"; "2.0"; "2026"].

Definition bo_row : list string :=
  ["S2"; "Bo"; "22"; "b@x.com"; "Chemistry"; "3.5"; "2025"].

Definition file_with_duplicate : csv_rows :=
  [Config.CSV_COLUMNS; ann_row;
   ["S1"; "Al"; "21"; "al@x.com"; "Biology"; "3.0"; "2027"]; bo_row].

Definition file_with_short_row : csv_rows :=
  [Config.CSV_COLUMNS; ann_row; ["S3"]; bo_row].

Definition file_with_bad_rows : csv_rows :=
  [Config.CSV_COLUMNS; ann_row; [];
   [""; "Cy"; "19"; "c@x.com"; "Biology"; "3.1"; "2027"];
   ["S4"; "Di"; "young"; "d@x.com"; "Biology"; "3.1"; "2027"]; bo_row].

(** Text with a character that is not whitespace. *)
Definition has_nonspace (s : string) : Prop :=
  exists c, In c (list_ascii_of_string s) /\ py_isspace c = false.

(** The keys of a store: record ids are positive, pairwise different and
    not above the AUTOINCREMENT counter; student ids are pairwise
    different. *)
Definition keys_unique (db : database) : Prop :=
  NoDup (map id (student db))
  /\ NoDup (map student_id (student db))
  /\ Forall (fun r => 0 < id r <= sqlite_sequence db) (student db)
  /\ 0 <= sqlite_sequence db.

(** The required text of a record is there. *)
Definition fields_present (r : row) : Prop :=
  blank (student_id r) = false /\ blank (name r) = false.

(** Ascending by name. *)
Definition name_le (a b : row) : Prop := (name a <=? name b)%string = true.

(** The rows of a file that [csv.DictReader] hands to the loop. *)
Definition data_rows (rows : csv_rows) : list (list string) :=
  filter (fun row => match row with [] => false | _ => true end) rows.

(** One store follows another by add, update and delete. *)
Inductive evolves : database -> database -> Prop :=
  | evolves_refl db : evolves db db
  | evolves_add db db' student_id name age email department gpa
                graduation_year :
      evolves db db' ->
      evolves db (snd (add_student_record student_id name age email department
                                          gpa graduation_year db'))
  | evolves_update db db' record_id student_id name age email department gpa
                   graduation_year :
      evolves db db' ->
      evolves db (snd (update_record record_id student_id name age email
                                     department gpa graduation_year db'))
  | evolves_delete db db' record_id :
      evolves db db' ->
      evolves db (snd (delete_record record_id db')).

(** A record id the store has handed out and no longer holds. *)
Definition retired (i : Z) (db : database) : Prop :=
  i <= sqlite_sequence db /\ forall r, In r (student db) -> id r <> i.

(** The table shows the records of the store. *)
Definition in_sync (a : App.app) : Prop :=
  App.table a = map App.item_values (order_by_name (student (App.store a))).

(** The two attributes of the remembered record go together. *)
Definition selection_coherent (a : App.app) : Prop :=
  match App.selected_record a, App.db_id a with
  | None, None => True
  | Some r, Some i => i = id r
  | _, _ => False
  end.

(** Text with no whitespace at either end, and the records whose student
    id, name and email are such. *)
Definition stripped (s : string) : Prop := strip s = s.

Definition text_stripped (r : row) : Prop :=
  stripped (student_id r) /\ stripped (name r) /\ stripped (email r).

(** What SQLite stores: an integer of 64 bits (sqlite3 refuses any other
    at the bind, with OverflowError), and as a number a double that is
    not NaN (NaN is stored as NULL).  A double is kept as it is bound
    when, moreover, it is not [-0.0], which is read back as [0.0].  The
    properties of what the application writes are stated for entries,
    and for files, whose ages, years and gpas are such. *)
Definition sqlite_integer (z : Z) : Prop := - 2 ^ 63 <= z < 2 ^ 63.

Definition sqlite_real (x : float) : Prop := Prim2SF x <> S754_nan.

Definition sqlite_same (x : float) : Prop :=
  sqlite_real x /\ Prim2SF x <> S754_zero true.

Definition entries_stored (f : App.fields) : Prop :=
  (forall age, py_int (PyStr (App.Age f)) = Ok age -> sqlite_integer age)
  /\ (forall gpa, py_float (PyStr (App.GPA f)) = Ok gpa -> sqlite_real gpa).

Definition row_stored (row : dict) : Prop :=
  (forall age, py_int (get row "Age" (PyInt 0)) = Ok age -> sqlite_integer age)
  /\ (forall gpa, py_float (get row "GPA" (PyInt 0)) = Ok gpa -> sqlite_real gpa)
  /\ (forall year, py_int (get row "GraduationYear" (PyInt 0)) = Ok year ->
                   sqlite_integer year).

Definition file_stored (file : csv_rows) : Prop :=
  match file with
  | [] => True
  | fieldnames :: rows =>
      Forall (fun row => row_stored (dict_row fieldnames row [])) rows
  end.

(** Entries, rows and files whose gpa is, moreover, kept as it is bound. *)
Definition entries_kept (f : App.fields) : Prop :=
  entries_stored f
  /\ (forall gpa, py_float (PyStr (App.GPA f)) = Ok gpa -> sqlite_same gpa).

Definition row_kept (row : dict) : Prop :=
  row_stored row
  /\ (forall gpa, py_float (get row "GPA" (PyInt 0)) = Ok gpa -> sqlite_same gpa).

Definition file_kept (file : csv_rows) : Prop :=
  match file with
  | [] => True
  | fieldnames :: rows =>
      Forall (fun row => row_kept (dict_row fieldnames row [])) rows
  end.

(** The stores the three mutating operations produce from a fresh one
    when every age, year and record id they are given is an integer of 64
    bits and every gpa is kept as it is bound: the rows of such a store
    are the rows of the table. *)
Inductive kept : database -> Prop :=
  | kept_init : kept empty_database
  | kept_add db student_id name age email department gpa graduation_year :
      sqlite_integer age -> sqlite_same gpa -> sqlite_integer graduation_year ->
      kept db ->
      kept (snd (add_student_record student_id name age email department
                                    gpa graduation_year db))
  | kept_update db record_id student_id name age email department gpa
                graduation_year :
      sqlite_integer record_id ->
      sqlite_integer age -> sqlite_same gpa -> sqlite_integer graduation_year ->
      kept db ->
      kept (snd (update_record record_id student_id name age email
                               department gpa graduation_year db))
  | kept_delete db record_id :
      sqlite_integer record_id ->
      kept db ->
      kept (snd (delete_record record_id db)).

(** The states of the application: from its start on a fresh database, by
    its handlers. *)
Inductive app_reachable : App.app -> Prop :=
  | app_start : app_reachable (App.start empty_database)
  | app_save f a :
      entries_stored f -> app_reachable a -> app_reachable (snd (App.save f a))
  | app_update f a :
      entries_stored f -> app_reachable a ->
      app_reachable (snd (App.update f a))
  | app_delete confirm a :
      app_reachable a -> app_reachable (snd (App.show_delete_dialog confirm a))
  | app_click item a : app_reachable a -> app_reachable (App.click item a)
  | app_search term a :
      app_reachable a -> app_reachable (snd (App.search_student term a))
  | app_clear a : app_reachable a -> app_reachable (App.clear_search a)
  | app_import file_path file a :
      file_stored file -> app_reachable a ->
      app_reachable (snd (App.import_and_display file_path file a)).

(** What every state of the application keeps: the store is one reached by
    add, update and delete, the text of its records is stripped, and the
    remembered record and id go together. *)
Definition well_kept (a : App.app) : Prop :=
  reachable (App.store a)
  /\ Forall text_stripped (student (App.store a))
  /\ selection_coherent a.

(** The entries of the dialog examples. *)
Definition cy_fields : App.fields :=
  App.mkFields " S3 " "Cy " "19" " c@x.com" "Biology" "3.1" " 2027 ".

(** * Properties *)

(** ** Binary64 comparisons *)

Section Binary64.

Lemma digits2_pos_bounds (m : positive) :
  2 ^ (Zpos (digits2_pos m) - 1) <= Zpos m < 2 ^ Zpos (digits2_pos m).
Proof.
  induction m as [m IH | m IH |]; cbn [digits2_pos].
  - rewrite Pos2Z.inj_succ.
    replace (Z.succ (Zpos (digits2_pos m)) - 1)
      with (Z.succ (Zpos (digits2_pos m) - 1)) by lia.
    rewrite !Z.pow_succ_r by lia. lia.
  - rewrite Pos2Z.inj_succ.
    replace (Z.succ (Zpos (digits2_pos m)) - 1)
      with (Z.succ (Zpos (digits2_pos m) - 1)) by lia.
    rewrite !Z.pow_succ_r by lia. lia.
  - cbn. lia.
Qed.

(** A valid binary64 mantissa is below [2^53], and at least [2^52] unless
    the exponent is the least one. *)
Lemma bounded_mantissa (m : positive) (e : Z) :
  bounded prec emax m e = true ->
  Zpos m < 2 ^ 53 /\ (-1074 < e -> 2 ^ 52 <= Zpos m).
Proof.
  unfold bounded, canonical_mantissa, fexp, SpecFloat.emin, prec, emax.
  intros H. apply andb_prop in H. destruct H as [H _].
  apply Z.eqb_eq in H.
  pose proof (digits2_pos_bounds m) as [Hlo Hhi].
  set (d := Zpos (digits2_pos m)) in *.
  assert (Hd : 0 < d) by (subst d; lia).
  split.
  - assert (d <= 53) by lia.
    apply Z.lt_le_trans with (2 ^ d); [exact Hhi |].
    apply Z.pow_le_mono_r; lia.
  - intros He. assert (d = 53) by lia.
    replace 52 with (d - 1) by lia. exact Hlo.
Qed.

Lemma threshold_SF :
  Prim2SF Config.PASS_FAIL_THRESHOLD = S754_finite false 4953959590107546 (-51).
Proof. vm_compute. reflexivity. Qed.

(** The comparison [x < 2.2] of the doubles decides [q < 2.2] of the
    rationals, [q] being the rational [x] stands for. *)
Lemma ltb_threshold (x : float) (q : Q) :
  Q_of_float x = Some q ->
  (x <? Config.PASS_FAIL_THRESHOLD)%float = true <-> (q < 22 # 10)%Q.
Proof.
  unfold Q_of_float. intros Hq.
  rewrite ltb_spec, threshold_SF.
  pose proof (Prim2SF_valid x) as Hv.
  destruct (Prim2SF x) as [s | s | | s m e]; cbn in Hq; try discriminate.
  - injection Hq as <-. cbn. split; [intros _; reflexivity | reflexivity].
  - injection Hq as <-. cbn [valid_binary] in Hv.
    apply bounded_mantissa in Hv. destruct Hv as [Hhi Hlo].
    change (2 ^ 52) with 4503599627370496 in Hlo.
    change (2 ^ 53) with 9007199254740992 in Hhi.
    destruct s.
    + (* a negative double *)
      split; [intros _ | reflexivity]. clear Hhi Hlo.
      pose proof (Pos2Z.neg_is_neg m) as Hm.
      destruct e as [| p | p]; unfold Qlt; cbn [Qnum Qden inject_Z].
      * lia.
      * assert (0 < 2 ^ Zpos p) by (apply Z.pow_pos_nonneg; lia).
        set (zp := 2 ^ Zpos p) in *. set (zm := Zneg m) in *. nia.
      * lia.
    + unfold SFltb, SFcompare.
      destruct (Z.compare_spec e (-51)) as [He | He | He].
      * subst e. rewrite Pos.compare_cont_spec. cbn [Pos.switch_Eq].
        unfold Qlt; cbn [Qnum Qden].
        rewrite Pos2Z.inj_pow.
        change (2 ^ 51) with 2251799813685248.
        clear Hlo.
        rewrite Pos2Z.inj_compare.
        set (zm := Zpos m) in *.
        destruct (Z.compare_spec zm 4953959590107546) as [Hm | Hm | Hm];
          split; intros H; try discriminate; try reflexivity.
        all: lia.
      * split; [intros _ | reflexivity].
        destruct e as [| p | p]; try lia.
        unfold Qlt; cbn [Qnum Qden]. rewrite Pos2Z.inj_pow.
        assert (Hp : 2 ^ 52 <= 2 ^ Zpos p) by (apply Z.pow_le_mono_r; lia).
        change (2 ^ 52) with 4503599627370496 in Hp. clear Hlo.
        set (zm := Zpos m) in *. set (zp := 2 ^ Zpos p) in *. lia.
      * split; [discriminate |]. intros H. exfalso.
        assert (Hm : 4503599627370496 <= Zpos m) by (apply Hlo; lia).
        clear Hlo Hhi.
        set (zm := Zpos m) in *.
        destruct e as [| p | p]; unfold Qlt in H; cbn [Qnum Qden inject_Z] in H.
        -- lia.
        -- assert (0 < 2 ^ Zpos p) by (apply Z.pow_pos_nonneg; lia).
           set (zp := 2 ^ Zpos p) in *. nia.
        -- rewrite Pos2Z.inj_pow in H.
           assert (Hp : 2 ^ Zpos p <= 2 ^ 50) by (apply Z.pow_le_mono_r; lia).
           change (2 ^ 50) with 1125899906842624 in Hp.
           set (zp := 2 ^ Zpos p) in *. lia.
Qed.
End Binary64.

(** ** The status policy *)

Lemma calculate_status_float (g : float) :
  calculate_status (PyFloat g)
  = Ok (if (g <? Config.PASS_FAIL_THRESHOLD)%float then "FAIL" else "PASS").
Proof. reflexivity. Qed.

(** C1: a gpa in [2.2, 4.0] is classified PASS, a gpa in [0.0, 2.2) is
    classified FAIL, and an argument that is not a number is classified
    FAIL without an exception.  The interval is read on the rational the
    double stands for. *)
Theorem calculate_status_by_gpa (v : value) :
  (forall x q, py_float v = Ok x -> Q_of_float x = Some q ->
     (22 # 10 <= q)%Q -> (q <= 4)%Q -> calculate_status v = Ok "PASS")
  /\ (forall x q, py_float v = Ok x -> Q_of_float x = Some q ->
     (0 <= q)%Q -> (q < 22 # 10)%Q -> calculate_status v = Ok "FAIL")
  /\ (not_a_number v -> calculate_status v = Ok "FAIL").
Proof.
  unfold calculate_status. repeat split.
  - intros x q Hx Hq Hlo _. rewrite Hx.
    destruct (x <? Config.PASS_FAIL_THRESHOLD)%float eqn:E; [| reflexivity].
    apply (ltb_threshold x q Hq) in E.
    exfalso. exact (Qlt_not_le _ _ E Hlo).
  - intros x q Hx Hq _ Hhi. rewrite Hx.
    apply (ltb_threshold x q Hq) in Hhi. rewrite Hhi. reflexivity.
  - destruct v as [| z | f | s]; cbn [not_a_number]; intros H;
      try contradiction.
    + reflexivity.
    + cbn [py_float]. rewrite H. reflexivity.
Qed.

Lemma calculate_status_by_gpa_witness :
  calculate_status (PyFloat 3.5) = Ok "PASS"
  /\ calculate_status (PyStr "2.2") = Ok "PASS"
  /\ calculate_status (PyFloat 2.1) = Ok "FAIL"
  /\ calculate_status (PyInt 0) = Ok "FAIL"
  /\ calculate_status (PyStr "two") = Ok "FAIL"
  /\ calculate_status PyNone = Ok "FAIL".
Proof.
  split; [| split; [| split; [| split; [| split]]]].
  - eapply (proj1 (calculate_status_by_gpa (PyFloat 3.5)));
      [reflexivity | vm_compute; reflexivity | vm_compute; discriminate
      | vm_compute; discriminate].
  - eapply (proj1 (calculate_status_by_gpa (PyStr "2.2")));
      [vm_compute; reflexivity | vm_compute; reflexivity
      | vm_compute; discriminate | vm_compute; discriminate].
  - eapply (proj1 (proj2 (calculate_status_by_gpa (PyFloat 2.1))));
      [reflexivity | vm_compute; reflexivity | vm_compute; discriminate
      | vm_compute; reflexivity].
  - eapply (proj1 (proj2 (calculate_status_by_gpa (PyInt 0))));
      [vm_compute; reflexivity | vm_compute; reflexivity
      | vm_compute; discriminate | vm_compute; reflexivity].
  - apply (proj2 (proj2 (calculate_status_by_gpa (PyStr "two")))).
    vm_compute. reflexivity.
  - apply (proj2 (proj2 (calculate_status_by_gpa PyNone))). exact I.
Defined.

(** ** The record store: what each operation returns and leaves behind *)

Lemma existsb_filter {A : Type} (f : A -> bool) (l : list A) :
  existsb f l = match filter f l with [] => false | _ => true end.
Proof.
  induction l as [| a l IH]; [reflexivity |].
  cbn [existsb filter]. destruct (f a); [reflexivity | exact IH].
Qed.

Section Store.

Variables (sid nm : string) (ag : Z) (em dept : string) (g : float) (yr : Z).

Lemma add_student_record_eq (db : database) :
  add_student_record sid nm ag em dept g yr db =
  if blank sid then (Raise (ValueError StudentIdIsEmpty), db)
  else if blank nm then (Raise (ValueError NameIsEmpty), db)
  else if existsb (has_student_id sid) (student db)
  then (Raise (RuntimeError DatabaseConnectionError), db)
  else (Ok true,
        {| student := student db
                      ++ [row_of (sqlite_sequence db + 1) sid nm ag em dept g yr];
           sqlite_sequence := sqlite_sequence db + 1 |}).
Proof.
  unfold add_student_record.
  destruct (blank sid); [reflexivity |].
  destruct (blank nm); [reflexivity |].
  unfold bind, lift, try_except, get_db_connection, execute_insert, has_student_id.
  cbn [calculate_status py_float connect txn file].
  destruct (existsb _ (student db)); reflexivity.
Qed.

Lemma update_record_eq (rid : Z) (db : database) :
  update_record rid sid nm ag em dept g yr db =
  if blank sid then (Raise (ValueError StudentIdIsEmpty), db)
  else if blank nm then (Raise (ValueError NameIsEmpty), db)
  else if negb (existsb (has_id rid) (student db))
  then (Raise (ValueError RecordNotFound), db)
  else if existsb (fun r => negb (has_id rid r) && has_student_id sid r)
                  (student db)
  then (Raise (RuntimeError DatabaseConnectionError), db)
  else (Ok true,
        {| student := map (fun r => if has_id rid r
                                    then row_of (id r) sid nm ag em dept g yr
                                    else r) (student db);
           sqlite_sequence := sqlite_sequence db |}).
Proof.
  unfold update_record.
  destruct (blank sid); [reflexivity |].
  destruct (blank nm); [reflexivity |].
  unfold bind, lift, try_except, get_db_connection, execute_update,
    has_student_id, has_id.
  cbn [calculate_status py_float connect txn file].
  rewrite (existsb_filter (fun r => id r =? rid)).
  destruct (filter (fun r => id r =? rid) (student db)) as [| h hit] eqn:Hhit;
    cbn [negb].
  - reflexivity.
  - destruct (existsb _ (student db)); [reflexivity |].
    cbn [List.length]. rewrite Nat2Z.inj_succ.
    destruct (Z.eqb_spec (Z.succ (Z.of_nat (List.length hit))) 0); [lia |].
    reflexivity.
Qed.

End Store.

Lemma delete_record_eq (rid : Z) (db : database) :
  delete_record rid db =
  if rid <=? 0 then (Raise (ValueError InvalidRecordId), db)
  else if negb (existsb (has_id rid) (student db))
  then (Raise (ValueError RecordNotFound), db)
  else (Ok true,
        {| student := filter (fun r => negb (has_id rid r)) (student db);
           sqlite_sequence := sqlite_sequence db |}).
Proof.
  unfold delete_record.
  destruct (rid <=? 0); [reflexivity |].
  unfold bind, try_except, get_db_connection, execute_delete, has_id.
  cbn [connect txn file].
  rewrite (existsb_filter (fun r => id r =? rid)).
  destruct (filter (fun r => id r =? rid) (student db)) as [| h hit];
    cbn [negb].
  - reflexivity.
  - cbn [List.length]. rewrite Nat2Z.inj_succ.
    destruct (Z.eqb_spec (Z.succ (Z.of_nat (List.length hit))) 0); [lia |].
    reflexivity.
Qed.

Lemma search_by_student_id_eq (sid : string) (db : database) :
  search_by_student_id sid db =
  if blank sid then (Raise (ValueError EmptySearch), db)
  else match find (has_student_id sid) (student db) with
       | Some r => (Ok r, db)
       | None => (Raise (ValueError StudentNotFound), db)
       end.
Proof.
  unfold search_by_student_id.
  destruct (blank sid); [reflexivity |].
  unfold bind, try_except, get_db_connection, select_by_student_id, has_student_id.
  cbn [connect txn file].
  destruct (find _ (student db)); reflexivity.
Qed.

Lemma view_all_records_eq (db : database) :
  view_all_records db = (Ok (order_by_name (student db)), db).
Proof. reflexivity. Qed.

Lemma existsb_false_iff {A : Type} (f : A -> bool) (l : list A) :
  existsb f l = false <-> forall a, In a l -> f a = false.
Proof.
  split.
  - intros H a Ha. destruct (f a) eqn:E; [| reflexivity].
    rewrite <- H. symmetry. apply existsb_exists. exists a. split; assumption.
  - intros H. destruct (existsb f l) eqn:E; [| reflexivity].
    apply existsb_exists in E. destruct E as [a [Ha Hf]].
    rewrite (H a Ha) in Hf. discriminate.
Qed.

(** An operation that raises leaves the store as it was: the cases of the
    three equations above in which nothing is to be proved. *)
Ltac store_unchanged H :=
  repeat match goal with
         | |- context [if ?b then (Raise _, _) else _] =>
             destruct b eqn:?; [exact H |]
         end.

(** ** The status column *)

Lemma row_of_status_derived i sid nm ag em dept g yr :
  status_derived (row_of i sid nm ag em dept g yr).
Proof. unfold status_derived. reflexivity. Qed.

Lemma add_keeps_status_derived sid nm ag em dept g yr db :
  Forall status_derived (student db) ->
  Forall status_derived
    (student (snd (add_student_record sid nm ag em dept g yr db))).
Proof.
  intros H. rewrite add_student_record_eq. store_unchanged H.
  cbn [snd student]. apply Forall_app. split; [exact H |].
  constructor; [apply row_of_status_derived | constructor].
Qed.

Lemma update_keeps_status_derived rid sid nm ag em dept g yr db :
  Forall status_derived (student db) ->
  Forall status_derived
    (student (snd (update_record rid sid nm ag em dept g yr db))).
Proof.
  intros H. rewrite update_record_eq. store_unchanged H.
  cbn [snd student]. apply Forall_map.
  apply Forall_impl with (2 := H). intros r Hr.
  destruct (has_id rid r); [apply row_of_status_derived | exact Hr].
Qed.

Lemma delete_keeps_status_derived rid db :
  Forall status_derived (student db) ->
  Forall status_derived (student (snd (delete_record rid db))).
Proof.
  intros H. rewrite delete_record_eq. store_unchanged H.
  cbn [snd student]. rewrite Forall_forall in *.
  intros r Hr. apply filter_In in Hr. apply H. exact (proj1 Hr).
Qed.

Lemma status_derived_invariant (db : database) :
  reachable db -> Forall status_derived (student db).
Proof.
  induction 1 as [| db sid nm ag em dept g yr _ IH
                  | db rid sid nm ag em dept g yr _ IH
                  | db rid _ IH].
  - constructor.
  - apply add_keeps_status_derived, IH.
  - apply update_keeps_status_derived, IH.
  - apply delete_keeps_status_derived, IH.
Qed.

(** A store whose values are kept as they are bound is one reached by
    add, update and delete. *)
Lemma kept_reachable (db : database) : kept db -> reachable db.
Proof.
  induction 1 as [| db sid nm ag em dept g yr _ _ _ _ IH
                  | db rid sid nm ag em dept g yr _ _ _ _ _ IH
                  | db rid _ _ IH].
  - apply reach_init.
  - apply reach_add, IH.
  - apply reach_update, IH.
  - apply reach_delete, IH.
Qed.

(** The values of the examples are kept as they are bound. *)
Ltac kept_integer := vm_compute; split; [discriminate | reflexivity].

Ltac kept_real := split; vm_compute; discriminate.




(** ** Uniqueness of the student id *)

(** The claim of C3 fails: Bo's record cannot take Ann's student id. *)
Lemma update_to_other_student_id_fails :
  existsb (has_id 2) (student ann_and_bo) = true
  /\ existsb (fun r => has_id 1 r && has_student_id "S1" r)
             (student ann_and_bo) = true
  /\ update_record 2 "S1" "Bo" 22 "b@x.com" "Chemistry" 3.5 2025 ann_and_bo
     = (Raise (RuntimeError DatabaseConnectionError), ann_and_bo).
Proof. vm_compute. split; [| split]; reflexivity. Qed.

(** C3, amended: with a record id, an age and a year that are integers of
    64 bits, an update of an existing record to a student id that another
    record holds is refused by the UNIQUE constraint of the table, as a
    RuntimeError, and leaves the store as it was; an update to a student
    id that no other record holds succeeds. *)
Theorem update_record_student_id_unique
    (rid : Z) (sid nm : string) (ag : Z) (em dept : string) (g : float)
    (yr : Z) (db : database) (r : row) :
  sqlite_integer rid -> sqlite_integer ag -> sqlite_integer yr ->
  blank sid = false -> blank nm = false ->
  In r (student db) -> id r = rid ->
  ((exists r', In r' (student db) /\ id r' <> rid /\ student_id r' = sid) ->
   exists m, update_record rid sid nm ag em dept g yr db
             = (Raise (RuntimeError m), db))
  /\ ((forall r', In r' (student db) -> id r' <> rid -> student_id r' <> sid) ->
      fst (update_record rid sid nm ag em dept g yr db) = Ok true).
Proof.
  intros _ _ _ Hsid Hnm Hr Hid.
  rewrite update_record_eq, Hsid, Hnm.
  assert (Hhit : existsb (has_id rid) (student db) = true).
  { apply existsb_exists. exists r. split; [exact Hr |].
    unfold has_id. apply Z.eqb_eq, Hid. }
  rewrite Hhit. cbn [negb]. split.
  - intros [r' [Hr' [Hother Hsame]]].
    assert (Hdup : existsb (fun r => negb (has_id rid r) && has_student_id sid r)
                           (student db) = true).
    { apply existsb_exists. exists r'. split; [exact Hr' |].
      unfold has_id, has_student_id.
      apply andb_true_intro. split.
      - apply negb_true_iff, Z.eqb_neq, Hother.
      - apply String.eqb_eq, Hsame. }
    rewrite Hdup. exists DatabaseConnectionError. reflexivity.
  - intros Hfree.
    assert (Hdup : existsb (fun r => negb (has_id rid r) && has_student_id sid r)
                           (student db) = false).
    { apply existsb_false_iff. intros r' Hr'.
      unfold has_id, has_student_id.
      destruct (Z.eqb_spec (id r') rid) as [| Hne]; [reflexivity |].
      cbn [negb andb]. apply String.eqb_neq, (Hfree r' Hr' Hne). }
    rewrite Hdup. reflexivity.
Qed.

Lemma update_record_student_id_unique_witness :
  (exists m, update_record 2 "S1" "Bo" 22 "b@x.com" "Chemistry" 3.5 2025
                           ann_and_bo
             = (Raise (RuntimeError m), ann_and_bo))
  /\ fst (update_record 2 "S2" "Bo" 23 "bo@x.com" "Physics" 2.0 2025
                        ann_and_bo) = Ok true.
Proof.
  split.
  - refine (proj1 (update_record_student_id_unique
                     2 "S1" "Bo" 22 "b@x.com" "Chemistry" 3.5 2025 ann_and_bo
                     (row_of 2 "S2" "Bo" 22 "b@x.com" "Chemistry" 3.5 2025)
                     _ _ _ eq_refl eq_refl (or_intror (or_introl eq_refl))
                     eq_refl) _); try kept_integer.
    exists (row_of 1 "S1" "Ann" 20 "a@x.com" "Physics" 2.0 2026).
    split; [left; reflexivity | split; [discriminate | reflexivity]].
  - refine (proj2 (update_record_student_id_unique
                     2 "S2" "Bo" 23 "bo@x.com" "Physics" 2.0 2025 ann_and_bo
                     (row_of 2 "S2" "Bo" 22 "b@x.com" "Chemistry" 3.5 2025)
                     _ _ _ eq_refl eq_refl (or_intror (or_introl eq_refl))
                     eq_refl) _); try kept_integer.
    intros r' [<- | [<- | []]] Hne; [discriminate | contradiction Hne; reflexivity].
Defined.

(** C4, as the code has it: with an age and a year that are integers of
    64 bits, adding a student id the store already holds raises the
    RuntimeError of the connection manager, not the ValueError for a
    duplicate that [add_student_record] was written to raise; the store
    is unchanged. *)
Theorem add_existing_student_id
    (sid nm : string) (ag : Z) (em dept : string) (g : float) (yr : Z)
    (db : database) (r : row) :
  sqlite_integer ag -> sqlite_integer yr ->
  blank nm = false ->
  In r (student db) -> student_id r = sid -> blank sid = false ->
  add_student_record sid nm ag em dept g yr db
  = (Raise (RuntimeError DatabaseConnectionError), db).
Proof.
  intros _ _ Hnm Hr Hsid Hb.
  rewrite add_student_record_eq, Hb, Hnm.
  assert (Hdup : existsb (has_student_id sid) (student db) = true).
  { apply existsb_exists. exists r. split; [exact Hr |].
    apply String.eqb_eq, Hsid. }
  rewrite Hdup. reflexivity.
Qed.

Lemma add_existing_student_id_witness :
  add_student_record "S1" "Bob" 21 "bob@x.com" "Biology" 3.0 2027 ann_only
  = (Raise (RuntimeError DatabaseConnectionError), ann_only).
Proof.
  refine (add_existing_student_id
            "S1" "Bob" 21 "bob@x.com" "Biology" 3.0 2027 ann_only
            (row_of 1 "S1" "Ann" 20 "a@x.com" "Physics" 2.0 2026)
            _ _ eq_refl (or_introl eq_refl) eq_refl eq_refl);
    kept_integer.
Defined.

(** C5: an update with valid fields of a record id the store does not
    hold, the record id, the age and the year being integers of 64 bits,
    raises the ValueError for a missing record and leaves the store, and
    so its number of records, unchanged. *)
Theorem update_record_not_found
    (rid : Z) (sid nm : string) (ag : Z) (em dept : string) (g : float)
    (yr : Z) (db : database) :
  sqlite_integer rid -> sqlite_integer ag -> sqlite_integer yr ->
  blank sid = false -> blank nm = false ->
  (forall r, In r (student db) -> id r <> rid) ->
  update_record rid sid nm ag em dept g yr db
  = (Raise (ValueError RecordNotFound), db)
  /\ fst (get_statistics (snd (update_record rid sid nm ag em dept g yr db)))
     = fst (get_statistics db).
Proof.
  intros _ _ _ Hsid Hnm Hnone.
  assert (Hhit : existsb (has_id rid) (student db) = false).
  { apply existsb_false_iff. intros r Hr. apply Z.eqb_neq, (Hnone r Hr). }
  assert (E : update_record rid sid nm ag em dept g yr db
              = (Raise (ValueError RecordNotFound), db)).
  { rewrite update_record_eq, Hsid, Hnm, Hhit. reflexivity. }
  rewrite E. split; reflexivity.
Qed.

Lemma update_record_not_found_witness :
  update_record 7 "S7" "Cy" 19 "c@x.com" "Biology" 3.1 2027 ann_and_bo
  = (Raise (ValueError RecordNotFound), ann_and_bo)
  /\ fst (get_statistics
            (snd (update_record 7 "S7" "Cy" 19 "c@x.com" "Biology" 3.1 2027
                                ann_and_bo)))
     = fst (get_statistics ann_and_bo).
Proof.
  apply update_record_not_found;
    [kept_integer | kept_integer | kept_integer | reflexivity | reflexivity |].
  intros r [<- | [<- | []]]; discriminate.
Defined.

(** ** Statistics *)

Lemma get_statistics_eq (db : database) :
  get_statistics db =
  (Ok {| total := Z.of_nat (List.length (student db));
         pass := count_status "PASS" db;
         fail := count_status "FAIL" db;
         avg_gpa := py_round match sql_avg (map gpa (student db)) with
                             | Some a => if float_truthy a then a else 0%float
                             | None => 0%float
                             end 2 |}, db).
Proof. reflexivity. Qed.











(** The example scenario of the spec. *)
Example statistics_scenario :
  fst (get_statistics ann_only) = Ok (mkStatistics 1 0 1 2.0)
  /\ fst (get_statistics ann_and_bo) = Ok (mkStatistics 2 1 1 2.75)
  /\ fst (get_statistics empty_database) = Ok (mkStatistics 0 0 0 0.0).
Proof. vm_compute. split; [| split]; reflexivity. Qed.

(** ** Text *)

Section Text.

Lemma rstrip_empty (s : string) :
  rstrip s = "" <-> all_space s = true.
Proof.
  induction s as [| c s IH]; cbn [rstrip all_space]; [tauto |].
  destruct (rstrip s) as [| y t].
  - destruct (py_isspace c); cbn [andb].
    + tauto.
    + split; discriminate.
  - split; [discriminate |]. intros H.
    apply andb_prop in H. destruct H as [_ H].
    apply IH in H. discriminate.
Qed.

Lemma all_space_lstrip (s : string) : all_space (lstrip s) = all_space s.
Proof.
  induction s as [| c s IH]; [reflexivity |].
  cbn [lstrip]. destruct (py_isspace c) eqn:E.
  - rewrite IH. cbn [all_space]. rewrite E. reflexivity.
  - reflexivity.
Qed.

Lemma all_space_rstrip (s : string) : all_space (rstrip s) = all_space s.
Proof.
  induction s as [| c s IH]; [reflexivity |].
  cbn [rstrip]. destruct (rstrip s) as [| y t] eqn:E.
  - apply rstrip_empty in E. cbn [all_space]. rewrite E.
    destruct (py_isspace c) eqn:Ec; cbn [all_space andb]; [reflexivity |].
    rewrite Ec. reflexivity.
  - cbn [all_space] in *. rewrite IH. reflexivity.
Qed.

Lemma all_space_strip (s : string) : all_space (strip s) = all_space s.
Proof. unfold strip. rewrite all_space_rstrip. apply all_space_lstrip. Qed.

(** [not s or not s.strip()] holds of the texts made of whitespace only. *)
Lemma blank_all_space (s : string) : blank s = all_space s.
Proof.
  unfold blank.
  destruct s as [| c s]; [reflexivity |].
  cbn [truthy negb orb].
  destruct (strip (String c s)) as [| y t] eqn:E.
  - unfold strip in E. apply rstrip_empty in E.
    rewrite all_space_lstrip in E. rewrite E. reflexivity.
  - cbn [truthy negb].
    destruct (all_space (String c s)) eqn:Ea; [| reflexivity].
    rewrite <- all_space_lstrip in Ea. apply rstrip_empty in Ea.
    unfold strip in E. rewrite Ea in E. discriminate.
Qed.

Lemma all_space_false (s : string) :
  all_space s = false <->
  exists c, In c (list_ascii_of_string s) /\ py_isspace c = false.
Proof.
  induction s as [| c s IH]; cbn [all_space list_ascii_of_string].
  - split; [discriminate | intros [c [[] _]]].
  - destruct (py_isspace c) eqn:E; cbn [andb].
    + rewrite IH. split.
      * intros [x [Hx Hs]]. exists x. split; [right; exact Hx | exact Hs].
      * intros [x [[<- | Hx] Hs]]; [congruence |].
        exists x. split; assumption.
    + split; [| reflexivity]. intros _. exists c. split; [left; reflexivity | exact E].
Qed.

(** The text [rstrip] returns does not end in whitespace. *)
Lemma rstrip_last (s u : string) (c : ascii) :
  rstrip s = (u ++ String c "")%string -> py_isspace c = false.
Proof.
  revert u. induction s as [| x s IH]; intros u; cbn [rstrip].
  - destruct u; discriminate.
  - destruct (rstrip s) as [| y t].
    + destruct (py_isspace x) eqn:E.
      * destruct u; discriminate.
      * destruct u as [| z u]; cbn [append]; intros H.
        -- injection H as <-. exact E.
        -- injection H as _ H. destruct u; discriminate.
    + destruct u as [| z u]; cbn [append]; intros H.
      * discriminate.
      * injection H as _ H. apply (IH u). exact H.
Qed.

Lemma sign_digit (c : ascii) (s : string) :
  is_digit c = true -> sign (String c s) = (false, String c s).
Proof.
  destruct c as [[] [] [] [] [] [] [] []]; intros H;
    solve [discriminate H | reflexivity].
Qed.

Lemma digit_not_num_space (c : ascii) :
  is_digit c = true -> num_isspace c = false.
Proof.
  destruct c as [[] [] [] [] [] [] [] []]; intros H;
    solve [discriminate H | reflexivity].
Qed.

Lemma digitpart_last (c : ascii) :
  is_digit c = true -> digitpart (String c "") = ([digit_value c], "").
Proof. intros H. cbn [digitpart]. rewrite H. reflexivity. Qed.

Lemma digitpart_digit (c b : ascii) (s : string) :
  is_digit c = true -> is_digit b = true ->
  digitpart (String c (String b s))
  = (digit_value c :: fst (digitpart (String b s)),
     snd (digitpart (String b s))).
Proof.
  intros Hc Hb.
  change (digitpart (String c (String b s)))
    with (if is_digit c then
            match String b s with
            | String "_" (String d _ as s'') =>
                if is_digit d
                then let (ds, r) := digitpart s'' in (digit_value c :: ds, r)
                else ([digit_value c], String b s)
            | _ => let (ds, r) := digitpart (String b s) in (digit_value c :: ds, r)
            end
          else ([], String c (String b s))).
  rewrite Hc.
  destruct (digitpart (String b s)) as [ds r] eqn:E.
  destruct b as [[] [] [] [] [] [] [] []];
    solve [discriminate Hb | reflexivity].
Qed.

(** [int] reads a text of four digits as their number. *)
Lemma int_of_str_four_digits (a b c d : ascii) :
  is_digit a = true -> is_digit b = true ->
  is_digit c = true -> is_digit d = true ->
  int_of_str (String a (String b (String c (String d ""))))
  = Some (1000 * digit_value a + 100 * digit_value b
          + 10 * digit_value c + digit_value d).
Proof.
  intros Ha Hb Hc Hd. unfold int_of_str, num_strip.
  cbn [num_lstrip]. rewrite (digit_not_num_space a Ha).
  cbn [num_rstrip]. rewrite (digit_not_num_space d Hd).
  rewrite (sign_digit a _ Ha).
  rewrite (digitpart_digit a b _ Ha Hb), (digitpart_digit b c _ Hb Hc),
    (digitpart_digit c d _ Hc Hd), (digitpart_last d Hd).
  cbn [fst snd Z_of_digits fold_left]. f_equal. lia.
Qed.

End Text.

(** ** The year of the dialogs *)

Lemma not_space_not_newline (c : ascii) :
  py_isspace c = false -> (code c =? 10) = false.
Proof.
  intros H. destruct (Z.eqb_spec (code c) 10) as [E |]; [| reflexivity].
  unfold py_isspace in H. rewrite E in H. discriminate H.
Qed.

(** The claim of C7 fails: blanks around the four digits are accepted. *)
Lemma year_of_entry_accepts_whitespace :
  year_of_entry " 2025 " = Ok 2025 /\ spec_four_digits " 2025 " = None.
Proof. vm_compute. split; reflexivity. Qed.

(** C7, amended: the year check accepts exactly the entries that are four
    ASCII digits once leading and trailing whitespace is stripped, and
    returns their number; every other entry raises the ValueError of the
    year format. *)
Theorem year_of_entry_spec (entry : string) :
  year_of_entry entry =
  match spec_four_digits (strip entry) with
  | Some y => Ok y
  | None => Raise (ValueError YearInvalidFormat)
  end.
Proof.
  unfold year_of_entry.
  pose proof (rstrip_last (lstrip entry)) as Hlast. fold (strip entry) in Hlast.
  destruct (strip entry) as [| a [| b [| c [| d [| nl rest]]]]];
    try reflexivity.
  - cbn [re_match_year spec_four_digits].
    destruct (is_digit a) eqn:Ha; [| reflexivity].
    destruct (is_digit b) eqn:Hb; [| reflexivity].
    destruct (is_digit c) eqn:Hc; [| reflexivity].
    destruct (is_digit d) eqn:Hd; [| reflexivity].
    cbn [andb negb py_int].
    rewrite (int_of_str_four_digits a b c d Ha Hb Hc Hd). reflexivity.
  - cbn [re_match_year spec_four_digits].
    destruct rest as [| x rest].
    + rewrite (not_space_not_newline nl
                 (Hlast (String a (String b (String c (String d "")))) nl eq_refl)).
      rewrite !andb_false_r. reflexivity.
    + rewrite !andb_false_r. reflexivity.
Qed.

(** The examples of the spec. *)
Example year_of_entry_examples :
  year_of_entry "2025" = Ok 2025
  /\ year_of_entry "25" = Raise (ValueError YearInvalidFormat)
  /\ year_of_entry "20255" = Raise (ValueError YearInvalidFormat)
  /\ year_of_entry "20a5" = Raise (ValueError YearInvalidFormat).
Proof. vm_compute. repeat split. Qed.

(** ** Export *)

Lemma insert_by_name_perm (r : row) (l : list row) :
  Permutation (insert_by_name r l) (r :: l).
Proof.
  induction l as [| x l IH]; cbn [insert_by_name]; [apply Permutation_refl |].
  destruct (name x <? name r)%string; [| apply Permutation_refl].
  apply perm_trans with (x :: r :: l); [| apply perm_swap].
  apply perm_skip, IH.
Qed.

Lemma order_by_name_perm (l : list row) : Permutation (order_by_name l) l.
Proof.
  induction l as [| r l IH]; cbn [order_by_name fold_right]; [constructor |].
  apply perm_trans with (r :: order_by_name l).
  - apply insert_by_name_perm.
  - apply perm_skip, IH.
Qed.

(** The claim of C8 fails: on the empty store no file, and so no header,
    is written. *)
Lemma export_csv_empty_store :
  export_csv "students.csv" empty_database = (Ok NoData, empty_database).
Proof. reflexivity. Qed.

(** C8, amended: on a store with at least one record the export writes the
    header row and then one row per record; on a store with no record it
    writes nothing. *)
Theorem export_csv_spec (file_path : string) (db : database) :
  truthy file_path = true ->
  (student db = [] -> export_csv file_path db = (Ok NoData, db))
  /\ (student db <> [] ->
      exists records,
        export_csv file_path db
        = (Ok (ExportSuccess (map PyStr export_fieldnames
                              :: map export_row records)), db)
        /\ Permutation records (student db)).
Proof.
  intros Hpath. unfold export_csv. rewrite Hpath. cbn [negb].
  unfold try_except, bind. rewrite view_all_records_eq.
  pose proof (order_by_name_perm (student db)) as Hperm.
  destruct (order_by_name (student db)) as [| r records] eqn:E.
  - apply Permutation_nil in Hperm. split.
    + intros _. reflexivity.
    + intros Hne. contradiction (Hne Hperm).
  - split.
    + intros Hnil. rewrite Hnil in Hperm.
      apply Permutation_sym, Permutation_nil in Hperm. discriminate Hperm.
    + intros _. exists (r :: records). split; [reflexivity | exact Hperm].
Qed.

Lemma export_csv_spec_witness :
  (student ann_and_bo = [] ->
   export_csv "students.csv" ann_and_bo = (Ok NoData, ann_and_bo))
  /\ (student ann_and_bo <> [] ->
      exists records,
        export_csv "students.csv" ann_and_bo
        = (Ok (ExportSuccess (map PyStr export_fieldnames
                              :: map export_row records)), ann_and_bo)
        /\ Permutation records (student ann_and_bo)).
Proof. apply export_csv_spec. reflexivity. Defined.

(** ** Import *)

(** C9, as the code has it: a row whose student id the store already holds
    ends the import with the RuntimeError of the connection manager; no
    counts are reported and the rows after it are not read.  A row shorter
    than the header ends it with an AttributeError.  Rows that raise a
    ValueError are skipped and counted. *)
Theorem import_csv_aborts :
  import_csv "students.csv" file_with_duplicate empty_database
  = (Ok (ImportError (RuntimeError DatabaseConnectionError)), ann_only)
  /\ import_csv "students.csv" file_with_short_row empty_database
     = (Ok (ImportError AttributeError), ann_only)
  /\ import_csv "students.csv" file_with_bad_rows empty_database
     = (Ok (ImportComplete 2 2), ann_and_bo).
Proof. vm_compute. split; [| split]; reflexivity. Qed.

(** ** Text is stored as supplied *)

Lemma blank_false_iff (s : string) : blank s = false <-> has_nonspace s.
Proof. rewrite blank_all_space. apply all_space_false. Qed.

Lemma find_app_last (f : row -> bool) (l : list row) (r : row) :
  existsb f l = false -> find f (l ++ [r]) = if f r then Some r else None.
Proof.
  induction l as [| x l IH]; cbn [existsb find app]; [reflexivity |].
  destruct (f x); cbn [orb]; [discriminate | exact IH].
Qed.

Lemma existsb_app_last (f : row -> bool) (l : list row) (r : row) :
  existsb f (l ++ [r]) = existsb f l || f r.
Proof. rewrite existsb_app. cbn [existsb]. rewrite orb_false_r. reflexivity. Qed.

Lemma no_student_id (sid : string) (rows : list row) :
  (forall r, In r rows -> student_id r <> sid) ->
  existsb (has_student_id sid) rows = false.
Proof.
  intros H. apply existsb_false_iff. intros r Hr.
  apply String.eqb_neq, (H r Hr).
Qed.

(** C10: [add_student_record] stores the student id and the name as they
    are supplied.  With a student id and a name that are not blank, a
    student id the store does not hold, and an age and a year that are
    integers of 64 bits, the add succeeds, the exact-match
    search finds a record with that very student id and name, and, when
    the student id differs from its stripped form, the stripped form is a
    different key: the search for it finds nothing and it can be added. *)
Theorem add_student_record_verbatim
    (sid nm : string) (ag : Z) (em dept : string) (g : float) (yr : Z)
    (db : database) :
  sqlite_integer ag -> sqlite_integer yr ->
  has_nonspace sid -> has_nonspace nm ->
  (forall r, In r (student db) -> student_id r <> sid) ->
  exists db' r,
    add_student_record sid nm ag em dept g yr db = (Ok true, db')
    /\ search_by_student_id sid db' = (Ok r, db')
    /\ student_id r = sid /\ name r = nm
    /\ (strip sid <> sid ->
        (forall r', In r' (student db) -> student_id r' <> strip sid) ->
        search_by_student_id (strip sid) db'
        = (Raise (ValueError StudentNotFound), db')
        /\ fst (add_student_record (strip sid) nm ag em dept g yr db')
           = Ok true).
Proof.
  intros _ _ Hsid Hnm Hfree.
  apply blank_false_iff in Hsid. apply blank_false_iff in Hnm.
  pose proof (no_student_id sid (student db) Hfree) as Hnone.
  rewrite add_student_record_eq, Hsid, Hnm, Hnone.
  eexists. exists (row_of (sqlite_sequence db + 1) sid nm ag em dept g yr).
  split; [reflexivity |].
  split.
  { rewrite search_by_student_id_eq, Hsid. cbn [student].
    rewrite (find_app_last _ _ _ Hnone).
    unfold has_student_id, row_of. cbn [student_id].
    rewrite String.eqb_refl. reflexivity. }
  split; [reflexivity |]. split; [reflexivity |].
  intros Hne Hfree'.
  pose proof (no_student_id (strip sid) (student db) Hfree') as Hnone'.
  assert (Hb : blank (strip sid) = false).
  { rewrite blank_all_space, all_space_strip, <- blank_all_space. exact Hsid. }
  assert (Hnew : has_student_id (strip sid)
                   (row_of (sqlite_sequence db + 1) sid nm ag em dept g yr)
                 = false).
  { unfold has_student_id, row_of. cbn [student_id].
    apply String.eqb_neq. intros E. apply Hne. symmetry. exact E. }
  split.
  - rewrite search_by_student_id_eq, Hb. cbn [student].
    rewrite (find_app_last _ _ _ Hnone'), Hnew. reflexivity.
  - rewrite add_student_record_eq, Hb, Hnm. cbn [student].
    rewrite existsb_app_last, Hnone', Hnew. reflexivity.
Qed.

Lemma add_student_record_verbatim_witness :
  exists db' r,
    add_student_record " S1 " " Ann" 20 "a@x.com" "Physics" 2.0 2026
                       empty_database = (Ok true, db')
    /\ search_by_student_id " S1 " db' = (Ok r, db')
    /\ student_id r = " S1 " /\ name r = " Ann"
    /\ (strip " S1 " <> " S1 " ->
        (forall r', In r' (student empty_database) ->
                    student_id r' <> strip " S1 ") ->
        search_by_student_id (strip " S1 ") db'
        = (Raise (ValueError StudentNotFound), db')
        /\ fst (add_student_record (strip " S1 ") " Ann" 20 "a@x.com"
                                   "Physics" 2.0 2026 db')
           = Ok true).
Proof.
  apply add_student_record_verbatim.
  - kept_integer.
  - kept_integer.
  - exists "S"%char. split; [right; left; reflexivity | reflexivity].
  - exists "A"%char. split; [right; left; reflexivity | reflexivity].
  - intros r [].
Defined.

(** The trimmed and the untrimmed student id side by side. *)
Example untrimmed_student_id :
  strip " S1 " = "S1"
  /\ fst (search_by_student_id "S1"
            (snd (add_student_record " S1 " "Ann" 20 "a@x.com" "Physics"
                                     2.0 2026 empty_database)))
     = Raise (ValueError StudentNotFound)
  /\ fst (add_student_record " S1 " "Ann" 20 "a@x.com" "Physics" 2.0 2026
                             ann_only) = Ok true.
Proof. vm_compute. repeat split. Qed.

(** ** Keys *)

Section Keys.

Lemma NoDup_app_last {A : Type} (l : list A) (a : A) :
  NoDup l -> ~ In a l -> NoDup (l ++ [a]).
Proof.
  intros Hl Ha. induction Hl as [| x l Hx _ IH]; cbn [app].
  - constructor; [intros [] | constructor].
  - constructor.
    + intros Hin. apply in_app_or in Hin. destruct Hin as [Hin | [<- | []]].
      * exact (Hx Hin).
      * apply Ha. left. reflexivity.
    + apply IH. intros Hin. apply Ha. right. exact Hin.
Qed.

Lemma filter_keeps_keys_distinct {K : Type} (key : row -> K)
    (keep : row -> bool) (rows : list row) (H : NoDup (map key rows)) :
  NoDup (map key (filter keep rows)).
Proof.
  induction rows as [| x rows IH]; cbn [map filter] in *; [exact H |].
  inversion H as [| y ys Hx Hrows]; subst.
  destruct (keep x); [| exact (IH Hrows)].
  cbn [map]. constructor; [| exact (IH Hrows)].
  intros Hin. apply Hx. apply in_map_iff in Hin.
  destruct Hin as [z [Hz Hin]]. apply filter_In in Hin.
  apply in_map_iff. exists z. split; [exact Hz | exact (proj1 Hin)].
Qed.

Variables (sid nm : string) (ag : Z) (em dept : string) (g : float) (yr : Z).

Lemma add_keeps_keys (db : database) :
  keys_unique db ->
  keys_unique (snd (add_student_record sid nm ag em dept g yr db)).
Proof.
  intros H. rewrite add_student_record_eq.
  destruct (blank sid); [exact H |].
  destruct (blank nm); [exact H |].
  destruct (existsb _ _) eqn:E; [exact H |].
  destruct H as [Hid [Hsid [Hle Hseq]]].
  unfold keys_unique. cbn [snd student sqlite_sequence].
  rewrite !map_app. cbn [map]. unfold row_of at 1 2. cbn [id student_id].
  split; [| split; [| split]].
  - apply NoDup_app_last; [exact Hid |].
    intros Hin. apply in_map_iff in Hin. destruct Hin as [r [Hr Hin]].
    rewrite Forall_forall in Hle. specialize (Hle r Hin). lia.
  - apply NoDup_app_last; [exact Hsid |].
    intros Hin. apply in_map_iff in Hin. destruct Hin as [r [Hr Hin]].
    rewrite existsb_false_iff in E. specialize (E r Hin).
    unfold has_student_id in E. apply String.eqb_neq in E. exact (E Hr).
  - apply Forall_app. split.
    + apply Forall_impl with (2 := Hle). intros r Hr. lia.
    + constructor; [| constructor]. unfold row_of. cbn [id]. lia.
  - lia.
Qed.

Lemma update_keeps_keys (rid : Z) (db : database) :
  keys_unique db ->
  keys_unique (snd (update_record rid sid nm ag em dept g yr db)).
Proof.
  intros H. rewrite update_record_eq.
  destruct (blank sid); [exact H |].
  destruct (blank nm); [exact H |].
  destruct (negb _); [exact H |].
  destruct (existsb _ _) eqn:E; [exact H |].
  destruct H as [Hid [Hsid [Hle Hseq]]].
  rewrite existsb_false_iff in E.
  unfold keys_unique. cbn [snd student sqlite_sequence].
  set (f := fun r => if has_id rid r then row_of (id r) sid nm ag em dept g yr else r).
  assert (Hidf : forall r, id (f r) = id r).
  { intros r. unfold f. destruct (has_id rid r); reflexivity. }
  assert (Hmap : map id (map f (student db)) = map id (student db)).
  { rewrite map_map. apply map_ext. exact Hidf. }
  split; [| split; [| split]].
  - rewrite Hmap. exact Hid.
  - clear Hmap Hle Hseq. revert Hid Hsid E.
    induction (student db) as [| x l IH]; cbn [map]; intros Hid Hsid E;
      [constructor |].
    inversion Hid as [| ? ? Hx Hidl]; subst.
    inversion Hsid as [| ? ? Hsx Hsidl]; subst.
    constructor.
    + intros Hin. apply in_map_iff in Hin. destruct Hin as [y' [Hy' Hin]].
      apply in_map_iff in Hin. destruct Hin as [y [<- Hy]].
      assert (Hxy : id y <> id x).
      { intros Heq. apply Hx. rewrite <- Heq.
        apply in_map_iff. exists y. split; [reflexivity | exact Hy]. }
      pose proof (E x (or_introl eq_refl)) as Ex.
      pose proof (E y (or_intror Hy)) as Ey.
      unfold f, has_id, has_student_id in *.
      destruct (Z.eqb_spec (id x) rid) as [Hxr | Hxr];
        destruct (Z.eqb_spec (id y) rid) as [Hyr | Hyr];
        cbn [negb andb student_id row_of] in *.
      * congruence.
      * apply String.eqb_neq in Ey. congruence.
      * apply String.eqb_neq in Ex. congruence.
      * apply Hsx. rewrite <- Hy'.
        apply in_map_iff. exists y. split; [reflexivity | exact Hy].
    + apply IH; [exact Hidl | exact Hsidl |].
      intros r Hr. apply E. right. exact Hr.
  - apply Forall_map. apply Forall_impl with (2 := Hle).
    intros r Hr. rewrite Hidf. exact Hr.
  - exact Hseq.
Qed.

End Keys.

Lemma delete_keeps_keys (rid : Z) (db : database) :
  keys_unique db -> keys_unique (snd (delete_record rid db)).
Proof.
  intros H. rewrite delete_record_eq.
  destruct (rid <=? 0); [exact H |].
  destruct (negb _); [exact H |].
  destruct H as [Hid [Hsid [Hle Hseq]]].
  unfold keys_unique. cbn [snd student sqlite_sequence].
  split; [| split; [| split]].
  - apply filter_keeps_keys_distinct, Hid.
  - apply filter_keeps_keys_distinct, Hsid.
  - rewrite Forall_forall in *. intros r Hr.
    apply filter_In in Hr. apply Hle. exact (proj1 Hr).
  - exact Hseq.
Qed.

Lemma keys_unique_invariant (db : database) :
  reachable db -> keys_unique db.
Proof.
  induction 1 as [| db sid nm ag em dept g yr _ IH
                  | db rid sid nm ag em dept g yr _ IH
                  | db rid _ IH].
  - unfold keys_unique. cbn. repeat split; try constructor. lia.
  - apply add_keeps_keys, IH.
  - apply update_keeps_keys, IH.
  - apply delete_keeps_keys, IH.
Qed.

Lemma add_keeps_fields sid nm ag em dept g yr db :
  Forall fields_present (student db) ->
  Forall fields_present
    (student (snd (add_student_record sid nm ag em dept g yr db))).
Proof.
  intros H. rewrite add_student_record_eq. store_unchanged H.
  cbn [snd student]. apply Forall_app. split; [exact H |].
  constructor; [| constructor]. split; assumption.
Qed.

Lemma update_keeps_fields rid sid nm ag em dept g yr db :
  Forall fields_present (student db) ->
  Forall fields_present
    (student (snd (update_record rid sid nm ag em dept g yr db))).
Proof.
  intros H. rewrite update_record_eq. store_unchanged H.
  cbn [snd student]. apply Forall_map.
  apply Forall_impl with (2 := H). intros r Hr.
  destruct (has_id rid r); [split; assumption | exact Hr].
Qed.

Lemma delete_keeps_fields rid db :
  Forall fields_present (student db) ->
  Forall fields_present (student (snd (delete_record rid db))).
Proof.
  intros H. rewrite delete_record_eq. store_unchanged H.
  cbn [snd student]. rewrite Forall_forall in *.
  intros r Hr. apply filter_In in Hr. apply H. exact (proj1 Hr).
Qed.

Lemma fields_present_invariant (db : database) :
  reachable db -> Forall fields_present (student db).
Proof.
  induction 1 as [| db sid nm ag em dept g yr _ IH
                  | db rid sid nm ag em dept g yr _ IH
                  | db rid _ IH].
  - constructor.
  - apply add_keeps_fields, IH.
  - apply update_keeps_fields, IH.
  - apply delete_keeps_fields, IH.
Qed.

(** X1: in every store reached by add, update and delete, no two records
    have the same student id. *)
Theorem student_id_unique (db : database) :
  reachable db -> NoDup (map student_id (student db)).
Proof. intros H. exact (proj1 (proj2 (keys_unique_invariant db H))). Qed.

Lemma student_id_unique_witness :
  reachable ann_and_bo /\ NoDup (map student_id (student ann_and_bo)).
Proof.
  assert (Hreach : reachable ann_and_bo).
  { unfold ann_and_bo, ann_only. apply reach_add, reach_add, reach_init. }
  split; [exact Hreach | exact (student_id_unique ann_and_bo Hreach)].
Defined.

(** X2: in every store reached by add, update and delete, record ids are
    positive and pairwise different, and a successful add gives the new
    record an id above every id of the store, the others keeping theirs. *)
Theorem record_id_unique_and_fresh
    (sid nm : string) (ag : Z) (em dept : string) (g : float) (yr : Z)
    (db db' : database) :
  reachable db ->
  NoDup (map id (student db))
  /\ (forall r, In r (student db) -> 0 < id r)
  /\ (add_student_record sid nm ag em dept g yr db = (Ok true, db') ->
      exists r, student db' = (student db ++ [r])%list
                /\ forall r', In r' (student db) -> id r' < id r).
Proof.
  intros Hreach.
  destruct (keys_unique_invariant db Hreach) as [Hid [_ [Hle _]]].
  rewrite Forall_forall in Hle.
  split; [exact Hid |]. split.
  - intros r Hr. exact (proj1 (Hle r Hr)).
  - rewrite add_student_record_eq.
    destruct (blank sid); [discriminate |].
    destruct (blank nm); [discriminate |].
    destruct (existsb _ _); [discriminate |].
    intros H. injection H as <-. cbn [student].
    eexists. split; [reflexivity |].
    intros r' Hr'. unfold row_of. cbn [id]. specialize (Hle r' Hr'). lia.
Qed.

Lemma record_id_unique_and_fresh_witness :
  NoDup (map id (student ann_only))
  /\ (forall r, In r (student ann_only) -> 0 < id r)
  /\ (add_student_record "S2" "Bo" 22 "b@x.com" "Chemistry" 3.5 2025 ann_only
      = (Ok true, ann_and_bo) ->
      exists r, student ann_and_bo = (student ann_only ++ [r])%list
                /\ forall r', In r' (student ann_only) -> id r' < id r).
Proof.
  apply record_id_unique_and_fresh.
  unfold ann_only. apply reach_add, reach_init.
Defined.

(** X3: in every store reached by add, update and delete, the student id
    and the name of every record are not blank. *)
Theorem required_text_present (db : database) (r : row) :
  reachable db -> In r (student db) ->
  has_nonspace (student_id r) /\ has_nonspace (name r).
Proof.
  intros Hreach Hr.
  pose proof (fields_present_invariant db Hreach) as H.
  rewrite Forall_forall in H. destruct (H r Hr) as [Hs Hn].
  split; apply blank_false_iff; assumption.
Qed.

Lemma required_text_present_witness :
  has_nonspace "S1" /\ has_nonspace "Ann".
Proof.
  apply (required_text_present ann_only
           (row_of 1 "S1" "Ann" 20 "a@x.com" "Physics" 2.0 2026)).
  - unfold ann_only. apply reach_add, reach_init.
  - left. reflexivity.
Defined.

(** ** Listing *)

Lemma ltb_name_le (a b : row) : (name a <? name b)%string = true -> name_le a b.
Proof.
  unfold name_le, String.ltb, String.leb.
  destruct (String.compare (name a) (name b)); intros H;
    solve [discriminate H | reflexivity].
Qed.

Lemma not_ltb_name_le (a b : row) :
  (name a <? name b)%string = false -> name_le b a.
Proof.
  unfold name_le, String.ltb, String.leb.
  rewrite (String.compare_antisym (name a) (name b)).
  destruct (String.compare (name b) (name a)); cbn [CompOpp]; intros H;
    solve [discriminate H | reflexivity].
Qed.

Lemma insert_by_name_hd (x r : row) (l : list row) :
  HdRel name_le x l -> name_le x r -> HdRel name_le x (insert_by_name r l).
Proof.
  intros Hl Hr. destruct l as [| y l]; cbn [insert_by_name].
  - constructor. exact Hr.
  - destruct (name y <? name r)%string; constructor.
    + inversion Hl; assumption.
    + exact Hr.
Qed.

Lemma insert_by_name_sorted (r : row) (l : list row) :
  Sorted name_le l -> Sorted name_le (insert_by_name r l).
Proof.
  induction 1 as [| x l Hl IH Hx]; cbn [insert_by_name].
  - constructor; constructor.
  - destruct (name x <? name r)%string eqn:E.
    + constructor; [exact IH |].
      apply insert_by_name_hd; [exact Hx | apply ltb_name_le, E].
    + constructor; [constructor; assumption |].
      constructor. apply not_ltb_name_le, E.
Qed.

Lemma order_by_name_sorted (l : list row) : Sorted name_le (order_by_name l).
Proof.
  induction l as [| r l IH]; cbn [order_by_name fold_right]; [constructor |].
  apply insert_by_name_sorted, IH.
Qed.

(** X4: [view_all_records] returns every record of the store, in ascending
    order of name, and leaves the store as it is; on a store with no record
    it returns the empty list. *)
Theorem view_all_records_sorted (db : database) :
  exists records,
    view_all_records db = (Ok records, db)
    /\ Permutation records (student db)
    /\ Sorted name_le records
    /\ (student db = [] -> records = []).
Proof.
  exists (order_by_name (student db)).
  split; [apply view_all_records_eq |].
  split; [apply order_by_name_perm |].
  split; [apply order_by_name_sorted |].
  intros E. rewrite E. reflexivity.
Qed.

(** ** Searching and deleting *)

Lemma NoDup_map_inj {A B : Type} (f : A -> B) (l : list A) (a b : A) :
  NoDup (map f l) -> In a l -> In b l -> f a = f b -> a = b.
Proof.
  induction l as [| x l IH]; cbn [map]; intros H Ha Hb E; [contradiction |].
  inversion H as [| ? ? Hx Hl]; subst.
  destruct Ha as [<- | Ha], Hb as [<- | Hb].
  - reflexivity.
  - exfalso. apply Hx. rewrite E. apply in_map, Hb.
  - exfalso. apply Hx. rewrite <- E. apply in_map, Ha.
  - exact (IH Hl Ha Hb E).
Qed.

Lemma find_none_iff {A : Type} (f : A -> bool) (l : list A) :
  find f l = None <-> forall a, In a l -> f a = false.
Proof.
  split.
  - apply find_none.
  - intros H. destruct (find f l) as [a |] eqn:E; [| reflexivity].
    apply find_some in E. destruct E as [Ha Hf].
    rewrite (H a Ha) in Hf. discriminate.
Qed.

(** X5: in a store reached by add, update and delete, deleting a record by
    its id succeeds, and the search for the student id of that record then
    raises the ValueError for a student that is not found. *)
Theorem delete_then_search (db : database) (r : row) :
  reachable db -> In r (student db) ->
  exists db',
    delete_record (id r) db = (Ok true, db')
    /\ search_by_student_id (student_id r) db'
       = (Raise (ValueError StudentNotFound), db').
Proof.
  intros Hreach Hr.
  destruct (keys_unique_invariant db Hreach) as [_ [Hsid [Hle _]]].
  pose proof (fields_present_invariant db Hreach) as Hf.
  rewrite Forall_forall in Hle, Hf.
  rewrite delete_record_eq.
  assert (Hpos : (id r <=? 0) = false) by (apply Z.leb_gt, (Hle r Hr)).
  assert (Hhit : existsb (has_id (id r)) (student db) = true).
  { apply existsb_exists. exists r. split; [exact Hr | apply Z.eqb_refl]. }
  rewrite Hpos, Hhit. cbn [negb]. eexists. split; [reflexivity |].
  rewrite search_by_student_id_eq, (proj1 (Hf r Hr)). cbn [student].
  assert (Hnone : find (has_student_id (student_id r))
                       (filter (fun r' => negb (has_id (id r) r')) (student db))
                  = None).
  { apply find_none_iff. intros r' Hr'. apply filter_In in Hr'.
    destruct Hr' as [Hin Hne]. unfold has_student_id.
    apply String.eqb_neq. intros E.
    pose proof (NoDup_map_inj student_id _ r' r Hsid Hin Hr E) as ->.
    unfold has_id in Hne. rewrite Z.eqb_refl in Hne. discriminate Hne. }
  rewrite Hnone. reflexivity.
Qed.

Lemma delete_then_search_witness :
  exists db',
    delete_record 1 ann_and_bo = (Ok true, db')
    /\ search_by_student_id "S1" db'
       = (Raise (ValueError StudentNotFound), db').
Proof.
  apply (delete_then_search ann_and_bo
           (row_of 1 "S1" "Ann" 20 "a@x.com" "Physics" 2.0 2026)).
  - unfold ann_and_bo, ann_only. apply reach_add, reach_add, reach_init.
  - left. reflexivity.
Defined.

(** X6: after a successful add with an age and a year that are integers
    of 64 bits and a gpa that is kept as it is bound, the search for the
    student id returns a record whose fields are the arguments of the add
    and whose status is [calculate_status] of the gpa. *)
Theorem add_then_search
    (sid nm : string) (ag : Z) (em dept : string) (g : float) (yr : Z)
    (db : database) :
  sqlite_integer ag -> sqlite_same g -> sqlite_integer yr ->
  has_nonspace sid -> has_nonspace nm ->
  (forall r, In r (student db) -> student_id r <> sid) ->
  exists db' i st,
    add_student_record sid nm ag em dept g yr db = (Ok true, db')
    /\ search_by_student_id sid db'
       = (Ok (mkRow i sid nm ag em dept g yr st), db')
    /\ calculate_status (PyFloat g) = Ok st.
Proof.
  intros _ _ _ Hsid Hnm Hfree.
  apply blank_false_iff in Hsid. apply blank_false_iff in Hnm.
  pose proof (no_student_id sid (student db) Hfree) as Hnone.
  rewrite add_student_record_eq, Hsid, Hnm, Hnone.
  eexists. exists (sqlite_sequence db + 1).
  exists (if (g <? Config.PASS_FAIL_THRESHOLD)%float then "FAIL" else "PASS").
  split; [reflexivity |]. split; [| reflexivity].
  rewrite search_by_student_id_eq, Hsid. cbn [student].
  rewrite (find_app_last _ _ _ Hnone).
  unfold has_student_id, row_of. cbn [student_id].
  rewrite String.eqb_refl. reflexivity.
Qed.

Lemma add_then_search_witness :
  exists db' i st,
    add_student_record "S2" "Bo" 22 "b@x.com" "Chemistry" 3.5 2025 ann_only
    = (Ok true, db')
    /\ search_by_student_id "S2" db'
       = (Ok (mkRow i "S2" "Bo" 22 "b@x.com" "Chemistry" 3.5 2025 st), db')
    /\ calculate_status (PyFloat 3.5) = Ok st.
Proof.
  apply add_then_search.
  - kept_integer.
  - kept_real.
  - kept_integer.
  - exists "S"%char. split; [left; reflexivity | reflexivity].
  - exists "B"%char. split; [left; reflexivity | reflexivity].
  - intros r [<- | []]. discriminate.
Defined.

(** X7: blank text and bad ids are refused before the store is touched:
    a student id that is empty or whitespace only is refused by add, update
    and search, such a name by add and update, and a record id that is not
    positive by delete; a positive id of 64 bits that the store does not
    hold makes delete raise the ValueError for a missing record.  The
    store is unchanged. *)
Theorem invalid_arguments_rejected
    (rid : Z) (sid nm : string) (ag : Z) (em dept : string) (g : float)
    (yr : Z) (db : database) :
  (all_space sid = true ->
   add_student_record sid nm ag em dept g yr db
   = (Raise (ValueError StudentIdIsEmpty), db)
   /\ update_record rid sid nm ag em dept g yr db
      = (Raise (ValueError StudentIdIsEmpty), db)
   /\ search_by_student_id sid db = (Raise (ValueError EmptySearch), db))
  /\ (all_space sid = false -> all_space nm = true ->
      add_student_record sid nm ag em dept g yr db
      = (Raise (ValueError NameIsEmpty), db)
      /\ update_record rid sid nm ag em dept g yr db
         = (Raise (ValueError NameIsEmpty), db))
  /\ (rid <= 0 ->
      delete_record rid db = (Raise (ValueError InvalidRecordId), db))
  /\ (0 < rid -> sqlite_integer rid ->
      (forall r, In r (student db) -> id r <> rid) ->
      delete_record rid db = (Raise (ValueError RecordNotFound), db)).
Proof.
  rewrite add_student_record_eq, update_record_eq, search_by_student_id_eq,
    delete_record_eq.
  rewrite !blank_all_space.
  split; [| split; [| split]].
  - intros ->. repeat split.
  - intros -> ->. repeat split.
  - intros H. apply Z.leb_le in H. rewrite H. reflexivity.
  - intros H _ Hnone. apply Z.leb_gt in H. rewrite H.
    assert (Hhit : existsb (has_id rid) (student db) = false).
    { apply existsb_false_iff. intros r Hr. apply Z.eqb_neq, (Hnone r Hr). }
    rewrite Hhit. reflexivity.
Qed.

Lemma invalid_arguments_rejected_witness :
  add_student_record "  " "Ann" 20 "a@x.com" "Physics" 2.0 2026 ann_only
  = (Raise (ValueError StudentIdIsEmpty), ann_only)
  /\ add_student_record "S5" "" 20 "a@x.com" "Physics" 2.0 2026 ann_only
     = (Raise (ValueError NameIsEmpty), ann_only)
  /\ delete_record 0 ann_only = (Raise (ValueError InvalidRecordId), ann_only)
  /\ delete_record 9 ann_only = (Raise (ValueError RecordNotFound), ann_only).
Proof.
  split; [| split; [| split]].
  - apply (proj1 (invalid_arguments_rejected
                    1 "  " "Ann" 20 "a@x.com" "Physics" 2.0 2026 ann_only)).
    reflexivity.
  - apply (proj1 (proj2 (invalid_arguments_rejected
                           1 "S5" "" 20 "a@x.com" "Physics" 2.0 2026 ann_only)));
      reflexivity.
  - apply (proj1 (proj2 (proj2 (invalid_arguments_rejected
                                  0 "S5" "" 20 "a@x.com" "Physics" 2.0 2026
                                  ann_only)))).
    lia.
  - apply (proj2 (proj2 (proj2 (invalid_arguments_rejected
                                  9 "S5" "" 20 "a@x.com" "Physics" 2.0 2026
                                  ann_only)))).
    + lia.
    + kept_integer.
    + intros r [<- | []]. discriminate.
Defined.

(** ** Counting the rows of an import *)

Lemma add_student_record_cases sid nm ag em dept g yr db :
  (exists db', add_student_record sid nm ag em dept g yr db = (Ok true, db')
               /\ List.length (student db') = S (List.length (student db)))
  \/ (exists e, add_student_record sid nm ag em dept g yr db = (Raise e, db)).
Proof.
  rewrite add_student_record_eq.
  destruct (blank sid); [right; eexists; reflexivity |].
  destruct (blank nm); [right; eexists; reflexivity |].
  destruct (existsb _ _); [right; eexists; reflexivity |].
  left. eexists. split; [reflexivity |].
  cbn [student]. rewrite length_app. cbn [List.length]. lia.
Qed.

Lemma import_row_cases (d : dict) (db : database) :
  (exists db', import_row d db = (Ok true, db')
               /\ List.length (student db') = S (List.length (student db)))
  \/ (exists e, import_row d db = (Raise e, db)).
Proof.
  unfold import_row, bind, lift.
  destruct (value_strip (get d "StudentID" (PyStr ""))) as [sid | e];
    [| right; eexists; reflexivity].
  destruct (value_strip (get d "Name" (PyStr ""))) as [nm | e];
    [| right; eexists; reflexivity].
  destruct (py_int (get d "Age" (PyInt 0))) as [ag | e];
    [| right; eexists; reflexivity].
  destruct (value_strip (get d "Email" (PyStr ""))) as [em | e];
    [| right; eexists; reflexivity].
  destruct (value_strip (get d "Department" (PyStr ""))) as [dept | e];
    [| right; eexists; reflexivity].
  destruct (py_float (get d "GPA" (PyInt 0))) as [g | e];
    [| right; eexists; reflexivity].
  destruct (py_int (get d "GraduationYear" (PyInt 0))) as [yr | e];
    [| right; eexists; reflexivity].
  apply add_student_record_cases.
Qed.

Lemma import_loop_counts (fieldnames : list string) (rows : csv_rows) :
  forall (imported skipped : Z) (db : database) (i s : Z) (db' : database),
    import_loop fieldnames rows imported skipped db = (Ok (i, s), db') ->
    i + s = imported + skipped + Z.of_nat (List.length (data_rows rows))
    /\ imported <= i /\ skipped <= s
    /\ Z.of_nat (List.length (student db'))
       = Z.of_nat (List.length (student db)) + (i - imported).
Proof.
  induction rows as [| row rows IH]; intros imported skipped db i s db' H.
  - cbn in H. injection H as <- <- <-. cbn. lia.
  - destruct row as [| field row].
    + cbn [import_loop] in H. specialize (IH _ _ _ _ _ _ H).
      cbn [data_rows filter]. exact IH.
    + cbn [import_loop] in H. unfold bind at 1, try_except, ret in H.
      unfold bind at 1 in H.
      cbn [data_rows filter List.length]. fold (data_rows rows).
      rewrite Nat2Z.inj_succ.
      destruct (import_row_cases (dict_row fieldnames (field :: row) []) db)
        as [[db1 [E Hlen]] | [e E]]; rewrite E in H.
      * specialize (IH _ _ _ _ _ _ H). lia.
      * destruct e as [m | m | | | | |]; try discriminate H.
        specialize (IH _ _ _ _ _ _ H). lia.
Qed.

(** X8: when [import_csv] completes, the imported and the skipped rows
    together are the data rows of the file that are not empty, and the
    store has grown by the number of imported rows. *)
Theorem import_csv_counts
    (file_path : string) (file : csv_rows) (db db' : database) (i s : Z) :
  import_csv file_path file db = (Ok (ImportComplete i s), db') ->
  i + s = Z.of_nat (List.length (data_rows (tl file)))
  /\ 0 <= i /\ 0 <= s
  /\ Z.of_nat (List.length (student db'))
     = Z.of_nat (List.length (student db)) + i.
Proof.
  unfold import_csv.
  destruct (truthy file_path); cbn [negb]; [| discriminate].
  destruct file as [| fieldnames rows]; [discriminate |].
  destruct fieldnames as [| f fieldnames]; [discriminate |].
  unfold try_except, bind, ret. cbn [tl].
  destruct (import_loop (f :: fieldnames) rows 0 0 db) as [[[i' s'] | e] db1] eqn:E;
    [| discriminate].
  cbn [fst snd]. intros H. injection H as <- <- <-.
  pose proof (import_loop_counts _ _ _ _ _ _ _ _ E). lia.
Qed.

Lemma import_csv_counts_witness :
  2 + 2 = Z.of_nat (List.length (data_rows (tl file_with_bad_rows)))
  /\ 0 <= 2 /\ 0 <= 2
  /\ Z.of_nat (List.length (student ann_and_bo))
     = Z.of_nat (List.length (student empty_database)) + 2.
Proof.
  apply (import_csv_counts "students.csv" file_with_bad_rows
                           empty_database ann_and_bo 2 2).
  vm_compute. reflexivity.
Defined.


(** ** What the store operations change *)

(** X9: an add, update or delete that raises leaves the store as it was,
    and search, listing and statistics never change it. *)
Theorem store_changes_only_on_success
    (rid : Z) (sid nm : string) (ag : Z) (em dept : string) (g : float)
    (yr : Z) (db : database) :
  (forall e db', add_student_record sid nm ag em dept g yr db = (Raise e, db')
                 -> db' = db)
  /\ (forall e db', update_record rid sid nm ag em dept g yr db = (Raise e, db')
                    -> db' = db)
  /\ (forall e db', delete_record rid db = (Raise e, db') -> db' = db)
  /\ snd (search_by_student_id sid db) = db
  /\ snd (view_all_records db) = db
  /\ snd (get_statistics db) = db.
Proof.
  rewrite add_student_record_eq, update_record_eq, delete_record_eq,
    search_by_student_id_eq.
  split; [| split; [| split; [| split; [| split]]]].
  - intros e db'.
    repeat match goal with
           | |- context [if ?b then _ else _] => destruct b
           end; intros H; inversion H; reflexivity.
  - intros e db'.
    repeat match goal with
           | |- context [if ?b then _ else _] => destruct b
           end; intros H; inversion H; reflexivity.
  - intros e db'.
    repeat match goal with
           | |- context [if ?b then _ else _] => destruct b
           end; intros H; inversion H; reflexivity.
  - destruct (blank sid); [reflexivity |].
    destruct (find _ _); reflexivity.
  - reflexivity.
  - reflexivity.
Qed.

Lemma split_at_id (rid : Z) (rows : list row) :
  NoDup (map id rows) ->
  existsb (has_id rid) rows = true ->
  exists before old after,
    rows = (before ++ old :: after)%list /\ id old = rid
    /\ (forall r, In r before -> has_id rid r = false)
    /\ (forall r, In r after -> has_id rid r = false).
Proof.
  intros Hnd Hex. apply existsb_exists in Hex. destruct Hex as [old [Hin Hid]].
  apply Z.eqb_eq in Hid.
  destruct (in_split old rows Hin) as [before [after E]]. subst rows.
  exists before, old, after. split; [reflexivity | split; [exact Hid |]].
  rewrite map_app in Hnd. cbn [map] in Hnd.
  pose proof (NoDup_remove_2 _ _ _ Hnd) as Hout.
  split; intros r Hr; apply Z.eqb_neq; intros E; apply Hout;
    rewrite Hid, <- E; apply in_or_app; [left | right]; apply in_map, Hr.
Qed.

Lemma map_unchanged {A : Type} (f : A -> A) (l : list A) :
  (forall a, In a l -> f a = a) -> map f l = l.
Proof.
  intros H. induction l as [| a l IH]; [reflexivity |].
  cbn [map]. rewrite (H a (or_introl eq_refl)), IH; [reflexivity |].
  intros b Hb. apply H. right. exact Hb.
Qed.

Lemma filter_all {A : Type} (p : A -> bool) (l : list A) :
  (forall a, In a l -> p a = true) -> filter p l = l.
Proof.
  intros H. induction l as [| a l IH]; [reflexivity |].
  cbn [filter]. rewrite (H a (or_introl eq_refl)), IH; [reflexivity |].
  intros b Hb. apply H. right. exact Hb.
Qed.

(** X10: in a store reached by add, update and delete, a successful update
    with an age, a gpa and a year that are kept as they are bound
    replaces the one record with that id, in its place and with its id,
    by the new fields and the status of the new gpa; every other record,
    the order and the AUTOINCREMENT counter stay. *)
Theorem update_record_effect
    (rid : Z) (sid nm : string) (ag : Z) (em dept : string) (g : float)
    (yr : Z) (db db' : database) :
  sqlite_integer ag -> sqlite_same g -> sqlite_integer yr ->
  reachable db ->
  update_record rid sid nm ag em dept g yr db = (Ok true, db') ->
  exists before old after st,
    student db = (before ++ old :: after)%list /\ id old = rid
    /\ student db'
       = (before ++ mkRow rid sid nm ag em dept g yr st :: after)%list
    /\ calculate_status (PyFloat g) = Ok st
    /\ sqlite_sequence db' = sqlite_sequence db.
Proof.
  intros _ _ _ Hreach. rewrite update_record_eq.
  destruct (blank sid); [discriminate |].
  destruct (blank nm); [discriminate |].
  destruct (existsb (has_id rid) (student db)) eqn:Hhit; [| discriminate].
  cbn [negb].
  destruct (existsb (fun r => negb (has_id rid r) && has_student_id sid r)
                    (student db)); [discriminate |].
  intros H. injection H as <-.
  destruct (keys_unique_invariant db Hreach) as [Hid _].
  destruct (split_at_id rid _ Hid Hhit)
    as [before [old [after [E [Hold [Hb Ha]]]]]].
  exists before, old, after.
  exists (if (g <? Config.PASS_FAIL_THRESHOLD)%float then "FAIL" else "PASS").
  split; [exact E |]. split; [exact Hold |].
  split; [| split; reflexivity].
  cbn [student]. rewrite E, map_app. cbn [map].
  assert (Hhas : has_id rid old = true) by (apply Z.eqb_eq, Hold).
  rewrite Hhas, Hold.
  rewrite (map_unchanged _ before), (map_unchanged _ after); [reflexivity | |].
  - intros r Hr. rewrite (Ha r Hr). reflexivity.
  - intros r Hr. rewrite (Hb r Hr). reflexivity.
Qed.

Lemma update_record_effect_witness :
  exists before old after st,
    student ann_and_bo = (before ++ old :: after)%list /\ id old = 2
    /\ student (snd (update_record 2 "S2" "Bo" 23 "bo@x.com" "Physics" 2.0
                                    2025 ann_and_bo))
       = (before ++ mkRow 2 "S2" "Bo" 23 "bo@x.com" "Physics" 2.0 2025 st
                 :: after)%list
    /\ calculate_status (PyFloat 2.0) = Ok st
    /\ sqlite_sequence (snd (update_record 2 "S2" "Bo" 23 "bo@x.com" "Physics"
                                           2.0 2025 ann_and_bo))
       = sqlite_sequence ann_and_bo.
Proof.
  apply update_record_effect.
  - kept_integer.
  - kept_real.
  - kept_integer.
  - unfold ann_and_bo, ann_only. apply reach_add, reach_add, reach_init.
  - vm_compute. reflexivity.
Defined.

(** X11: in a store reached by add, update and delete, a successful delete
    removes the one record with that id and nothing else; the order of the
    others and the AUTOINCREMENT counter stay, and the total of the
    statistics goes down by one. *)
Theorem delete_record_effect (rid : Z) (db db' : database) :
  reachable db ->
  delete_record rid db = (Ok true, db') ->
  exists before old after,
    student db = (before ++ old :: after)%list /\ id old = rid
    /\ student db' = (before ++ after)%list
    /\ sqlite_sequence db' = sqlite_sequence db
    /\ (forall st st', fst (get_statistics db) = Ok st ->
                       fst (get_statistics db') = Ok st' ->
                       total st' = total st - 1).
Proof.
  intros Hreach. rewrite delete_record_eq.
  destruct (rid <=? 0); [discriminate |].
  destruct (existsb (has_id rid) (student db)) eqn:Hhit; [| discriminate].
  cbn [negb]. intros H. injection H as <-.
  destruct (keys_unique_invariant db Hreach) as [Hid _].
  destruct (split_at_id rid _ Hid Hhit)
    as [before [old [after [E [Hold [Hb Ha]]]]]].
  exists before, old, after.
  assert (Hrows : filter (fun r => negb (has_id rid r)) (student db)
                  = (before ++ after)%list).
  { rewrite E, filter_app. cbn [filter].
    assert (Hhas : has_id rid old = true) by (apply Z.eqb_eq, Hold).
    rewrite Hhas. cbn [negb].
    rewrite (filter_all _ before), (filter_all _ after); [reflexivity | |].
    - intros r Hr. rewrite (Ha r Hr). reflexivity.
    - intros r Hr. rewrite (Hb r Hr). reflexivity. }
  split; [exact E |]. split; [exact Hold |].
  split; [exact Hrows |]. split; [reflexivity |].
  intros st st'. rewrite !get_statistics_eq. cbn [fst student].
  intros H H'. injection H as <-. injection H' as <-. cbn [total].
  rewrite Hrows, E, !length_app. cbn [List.length]. lia.
Qed.

Lemma delete_record_effect_witness :
  exists before old after,
    student ann_and_bo = (before ++ old :: after)%list /\ id old = 1
    /\ student (snd (delete_record 1 ann_and_bo)) = (before ++ after)%list
    /\ sqlite_sequence (snd (delete_record 1 ann_and_bo))
       = sqlite_sequence ann_and_bo
    /\ (forall st st', fst (get_statistics ann_and_bo) = Ok st ->
                       fst (get_statistics (snd (delete_record 1 ann_and_bo)))
                       = Ok st' ->
                       total st' = total st - 1).
Proof.
  apply delete_record_effect.
  - unfold ann_and_bo, ann_only. apply reach_add, reach_add, reach_init.
  - vm_compute. reflexivity.
Defined.

(** ** Record ids are not handed out twice *)

Lemma add_keeps_retired i sid nm ag em dept g yr db :
  retired i db -> retired i (snd (add_student_record sid nm ag em dept g yr db)).
Proof.
  intros H. rewrite add_student_record_eq. store_unchanged H.
  destruct H as [Hle Hnone]. unfold retired. cbn [snd student sqlite_sequence].
  split; [lia |]. intros r Hr. apply in_app_or in Hr.
  destruct Hr as [Hr | [<- | []]]; [exact (Hnone r Hr) |].
  unfold row_of. cbn [id]. lia.
Qed.

Lemma update_keeps_retired i rid sid nm ag em dept g yr db :
  retired i db ->
  retired i (snd (update_record rid sid nm ag em dept g yr db)).
Proof.
  intros H. rewrite update_record_eq. store_unchanged H.
  destruct H as [Hle Hnone]. unfold retired. cbn [snd student sqlite_sequence].
  split; [exact Hle |]. intros r Hr. apply in_map_iff in Hr.
  destruct Hr as [r0 [<- Hr0]].
  destruct (has_id rid r0); [unfold row_of; cbn [id] |]; exact (Hnone r0 Hr0).
Qed.

Lemma delete_keeps_retired i rid db :
  retired i db -> retired i (snd (delete_record rid db)).
Proof.
  intros H. rewrite delete_record_eq. store_unchanged H.
  destruct H as [Hle Hnone]. unfold retired. cbn [snd student sqlite_sequence].
  split; [exact Hle |]. intros r Hr. apply filter_In in Hr.
  exact (Hnone r (proj1 Hr)).
Qed.

Lemma evolves_keeps_retired i db db' :
  evolves db db' -> retired i db -> retired i db'.
Proof.
  induction 1 as [db
                  | db db' sid nm ag em dept g yr _ IH
                  | db db' rid sid nm ag em dept g yr _ IH
                  | db db' rid _ IH]; intros H.
  - exact H.
  - apply add_keeps_retired, IH, H.
  - apply update_keeps_retired, IH, H.
  - apply delete_keeps_retired, IH, H.
Qed.

(** X12: the id of a deleted record is not handed out again.  After a
    successful delete in a store reached by add, update and delete, no
    sequence of further adds, updates and deletes brings a record with
    that id, so a later delete by that id raises the ValueError for a
    missing record. *)
Theorem record_id_never_reused (i : Z) (db db1 db2 : database) :
  reachable db ->
  delete_record i db = (Ok true, db1) ->
  evolves db1 db2 ->
  (forall r, In r (student db2) -> id r <> i)
  /\ delete_record i db2 = (Raise (ValueError RecordNotFound), db2).
Proof.
  intros Hreach Hdel Hev.
  assert (Hret : retired i db1).
  { destruct (keys_unique_invariant db Hreach) as [_ [_ [Hle _]]].
    rewrite Forall_forall in Hle.
    rewrite delete_record_eq in Hdel.
    destruct (i <=? 0); [discriminate |].
    destruct (existsb (has_id i) (student db)) eqn:Hhit; [| discriminate].
    cbn [negb] in Hdel. injection Hdel as <-.
    apply existsb_exists in Hhit. destruct Hhit as [r [Hr Hid]].
    apply Z.eqb_eq in Hid. unfold retired. cbn [student sqlite_sequence].
    split; [specialize (Hle r Hr); lia |].
    intros r' Hr'. apply filter_In in Hr'. destruct Hr' as [_ Hne].
    apply negb_true_iff, Z.eqb_neq in Hne. exact Hne. }
  pose proof (evolves_keeps_retired i db1 db2 Hev Hret) as [_ Hnone].
  split; [exact Hnone |].
  rewrite delete_record_eq.
  assert (Hpos : (i <=? 0) = false).
  { rewrite delete_record_eq in Hdel.
    destruct (i <=? 0); [discriminate | reflexivity]. }
  assert (Hhit : existsb (has_id i) (student db2) = false).
  { apply existsb_false_iff. intros r Hr. apply Z.eqb_neq, (Hnone r Hr). }
  rewrite Hpos, Hhit. reflexivity.
Qed.

Lemma record_id_never_reused_witness :
  (forall r,
     In r (student (snd (add_student_record "S3" "Cy" 19 "c@x.com" "Biology"
                                            3.1 2027
                                            (snd (delete_record 1 ann_and_bo)))))
     -> id r <> 1)
  /\ delete_record 1
       (snd (add_student_record "S3" "Cy" 19 "c@x.com" "Biology" 3.1 2027
                                (snd (delete_record 1 ann_and_bo))))
     = (Raise (ValueError RecordNotFound),
        snd (add_student_record "S3" "Cy" 19 "c@x.com" "Biology" 3.1 2027
                                (snd (delete_record 1 ann_and_bo)))).
Proof.
  apply (record_id_never_reused 1 ann_and_bo (snd (delete_record 1 ann_and_bo))).
  - unfold ann_and_bo, ann_only. apply reach_add, reach_add, reach_init.
  - vm_compute. reflexivity.
  - apply evolves_add, evolves_refl.
Defined.

(** ** What an import changes *)

Lemma import_row_reachable (d : dict) (db : database) :
  reachable db -> reachable (snd (import_row d db)).
Proof.
  intros H. unfold import_row, bind, lift.
  repeat match goal with
         | |- context [match ?r with Ok _ => _ | Raise _ => _ end] =>
             destruct r; [| exact H]
         end.
  apply reach_add, H.
Qed.

Lemma import_row_appends (d : dict) (db : database) :
  exists added, student (snd (import_row d db)) = (student db ++ added)%list.
Proof.
  destruct (import_row_cases d db) as [[db' [E Hlen]] | [e E]]; rewrite E.
  - revert E. unfold import_row, bind, lift.
    repeat match goal with
           | |- context [match ?r with Ok _ => _ | Raise _ => _ end] =>
               destruct r; [| discriminate]
           end.
    rewrite add_student_record_eq.
    repeat match goal with
           | |- context [if ?b then (Raise _, _) else _] =>
               destruct b; [discriminate |]
           end.
    intros E. injection E as <-. cbn [snd student]. eexists. reflexivity.
  - exists []. cbn [snd]. rewrite app_nil_r. reflexivity.
Qed.

Lemma import_loop_step (fieldnames : list string) (field : string)
    (row : list string) (rows : csv_rows) (imported skipped : Z)
    (db : database) :
  import_loop fieldnames ((field :: row) :: rows) imported skipped db =
  match import_row (dict_row fieldnames (field :: row) []) db with
  | (Ok _, db1) => import_loop fieldnames rows (imported + 1) skipped db1
  | (Raise (ValueError m), db1) =>
      import_loop fieldnames rows imported (skipped + 1) db1
  | (Raise e, db1) => (Raise e, db1)
  end.
Proof.
  cbn [import_loop]. unfold bind, try_except, ret.
  destruct (import_row (dict_row fieldnames (field :: row) []) db)
    as [[b | e] db1]; [reflexivity |].
  destruct e; reflexivity.
Qed.

Lemma import_loop_reachable (fieldnames : list string) (rows : csv_rows) :
  forall imported skipped db,
    (reachable db ->
     reachable (snd (import_loop fieldnames rows imported skipped db)))
    /\ exists added,
         student (snd (import_loop fieldnames rows imported skipped db))
         = (student db ++ added)%list.
Proof.
  induction rows as [| row rows IH]; intros imported skipped db.
  - cbn. split; [trivial |]. exists []. rewrite app_nil_r. reflexivity.
  - destruct row as [| field row]; [apply IH |].
    rewrite import_loop_step.
    pose proof (import_row_reachable (dict_row fieldnames (field :: row) []) db)
      as Hreach.
    destruct (import_row_appends (dict_row fieldnames (field :: row) []) db)
      as [added1 Happ].
    destruct (import_row (dict_row fieldnames (field :: row) []) db)
      as [[b | e] db1]; cbn [snd] in *.
    + destruct (IH (imported + 1) skipped db1) as [IHr [added2 IHa]].
      split; [intros H; apply IHr, Hreach, H |].
      exists (added1 ++ added2)%list. rewrite IHa, Happ, app_assoc. reflexivity.
    + destruct e as [m | m | | | | |];
        try (cbn [snd]; split; [exact Hreach | exists added1; exact Happ]).
      destruct (IH imported (skipped + 1) db1) as [IHr [added2 IHa]].
      split; [intros H; apply IHr, Hreach, H |].
      exists (added1 ++ added2)%list. rewrite IHa, Happ, app_assoc. reflexivity.
Qed.

Lemma import_csv_reachable (file_path : string) (file : csv_rows)
    (db : database) :
  (reachable db -> reachable (snd (import_csv file_path file db)))
  /\ exists added,
       student (snd (import_csv file_path file db)) = (student db ++ added)%list.
Proof.
  assert (Hsame : (reachable db -> reachable db)
                  /\ exists added, student db = (student db ++ added)%list).
  { split; [trivial |]. exists []. rewrite app_nil_r. reflexivity. }
  unfold import_csv.
  destruct (truthy file_path); cbn [negb]; [| exact Hsame].
  destruct file as [| fieldnames rows]; [exact Hsame |].
  destruct fieldnames as [| f fieldnames]; [exact Hsame |].
  unfold try_except, bind, ret.
  pose proof (import_loop_reachable (f :: fieldnames) rows 0 0 db) as H.
  destruct (import_loop (f :: fieldnames) rows 0 0 db) as [[c | e] db1];
    exact H.
Qed.

(** The entries and rows of the examples are stored as bound. *)
Ltac stored_value :=
  let H := fresh in
  intros ? H; vm_compute in H;
  first [ discriminate H
        | injection H as <-; vm_compute;
          first [ discriminate | split; [discriminate | reflexivity] ] ].

Ltac stored_rows :=
  repeat (apply Forall_cons; [split; [| split]; stored_value |]);
  apply Forall_nil.

Ltac kept_gpa :=
  let H := fresh in
  intros ? H; vm_compute in H;
  first [ discriminate H | injection H as <-; kept_real ].

Ltac kept_rows :=
  repeat (apply Forall_cons;
          [split; [split; [| split]; stored_value | kept_gpa] |]);
  apply Forall_nil.

Lemma import_row_kept (d : dict) (db : database) :
  row_kept d -> kept db -> kept (snd (import_row d db)).
Proof.
  intros [[Hage [_ Hyear]] Hgpa] H. unfold import_row, bind, lift.
  destruct (value_strip (get d "StudentID" (PyStr ""))) as [sid | e];
    [| exact H].
  destruct (value_strip (get d "Name" (PyStr ""))) as [nm | e]; [| exact H].
  destruct (py_int (get d "Age" (PyInt 0))) as [ag | e] eqn:Eag; [| exact H].
  destruct (value_strip (get d "Email" (PyStr ""))) as [em | e]; [| exact H].
  destruct (value_strip (get d "Department" (PyStr ""))) as [dept | e];
    [| exact H].
  destruct (py_float (get d "GPA" (PyInt 0))) as [g | e] eqn:Eg; [| exact H].
  destruct (py_int (get d "GraduationYear" (PyInt 0))) as [yr | e] eqn:Eyr;
    [| exact H].
  apply kept_add;
    [exact (Hage _ eq_refl) | exact (Hgpa _ eq_refl)
    | exact (Hyear _ eq_refl) | exact H].
Qed.

Lemma import_loop_kept (fieldnames : list string) (rows : csv_rows) :
  Forall (fun row => row_kept (dict_row fieldnames row [])) rows ->
  forall imported skipped db,
    kept db -> kept (snd (import_loop fieldnames rows imported skipped db)).
Proof.
  induction 1 as [| row rows Hrow _ IH]; intros imported skipped db H;
    [exact H |].
  destruct row as [| field row]; [apply IH, H |].
  rewrite import_loop_step.
  pose proof (import_row_kept _ db Hrow H) as H1.
  destruct (import_row (dict_row fieldnames (field :: row) []) db)
    as [[b | e] db1]; cbn [snd] in H1.
  - apply IH, H1.
  - destruct e; try exact H1. apply IH, H1.
Qed.

Lemma import_csv_kept (file_path : string) (file : csv_rows) (db : database) :
  file_kept file -> kept db -> kept (snd (import_csv file_path file db)).
Proof.
  intros Hfile H. unfold import_csv.
  destruct (truthy file_path); cbn [negb]; [| exact H].
  destruct file as [| fieldnames rows]; [exact H |].
  destruct fieldnames as [| f fieldnames]; [exact H |].
  unfold try_except, bind, ret.
  pose proof (import_loop_kept (f :: fieldnames) rows Hfile 0 0 db H) as H1.
  destruct (import_loop (f :: fieldnames) rows 0 0 db) as [[c | e] db1];
    exact H1.
Qed.

(** X13: for a file whose ages and years are integers of 64 bits and
    whose gpas are kept as they are bound, however the import ends,
    completed or aborted, [import_csv] only appends records: the records
    of the store stay, unchanged and in their places.  A store whose
    values are kept as they are bound is still such a store after the
    import, so in it every status is that of the gpa and no two records
    share a student id. *)
Theorem import_csv_only_appends (file_path : string) (file : csv_rows)
    (db : database) :
  file_kept file ->
  (exists added,
     student (snd (import_csv file_path file db)) = (student db ++ added)%list)
  /\ (kept db ->
      kept (snd (import_csv file_path file db))
      /\ Forall status_derived (student (snd (import_csv file_path file db)))
      /\ NoDup (map student_id (student (snd (import_csv file_path file db))))).
Proof.
  intros Hfile.
  destruct (import_csv_reachable file_path file db) as [_ Happ].
  split; [exact Happ |]. intros H.
  pose proof (import_csv_kept file_path file db Hfile H) as Hkept.
  pose proof (kept_reachable _ Hkept) as Hreach.
  split; [exact Hkept | split].
  - apply status_derived_invariant, Hreach.
  - exact (proj1 (proj2 (keys_unique_invariant _ Hreach))).
Qed.

Lemma import_csv_only_appends_witness :
  (exists added,
     student (snd (import_csv "students.csv" file_with_duplicate ann_only))
     = (student ann_only ++ added)%list)
  /\ (kept ann_only ->
      kept (snd (import_csv "students.csv" file_with_duplicate ann_only))
      /\ Forall status_derived
                (student (snd (import_csv "students.csv" file_with_duplicate
                                          ann_only)))
      /\ NoDup (map student_id
                    (student (snd (import_csv "students.csv"
                                              file_with_duplicate ann_only))))).
Proof.
  apply (import_csv_only_appends "students.csv" file_with_duplicate ann_only).
  unfold file_kept, file_with_duplicate. kept_rows.
Defined.

Import App.

(** ** The GPA check of the dialogs *)

Lemma min_max_SF :
  Prim2SF Config.MIN_GPA = S754_zero false
  /\ Prim2SF Config.MAX_GPA = S754_finite false 4503599627370496 (-50).
Proof. vm_compute. split; reflexivity. Qed.

(** The two comparisons of the range check, on the rational a double
    stands for. *)
Lemma range_check_rational (g : float) (q : Q) :
  Q_of_float g = Some q ->
  (g <? Config.MIN_GPA)%float || (Config.MAX_GPA <? g)%float = false
  <-> (0 <= q)%Q /\ (q <= 4)%Q.
Proof.
  unfold Q_of_float. intros Hq.
  rewrite !ltb_spec. destruct min_max_SF as [-> ->].
  pose proof (Prim2SF_valid g) as Hv.
  destruct (Prim2SF g) as [s | s | | s m e]; cbn in Hq; try discriminate.
  - injection Hq as <-. destruct s; cbn; split; try reflexivity;
      intros _; split; discriminate.
  - injection Hq as <-. cbn [valid_binary] in Hv.
    apply bounded_mantissa in Hv. destruct Hv as [Hhi Hlo].
    change (2 ^ 52) with 4503599627370496 in Hlo.
    change (2 ^ 53) with 9007199254740992 in Hhi.
    destruct s.
    + (* negative *)
      cbn [SFltb SFcompare orb]. split; [discriminate |].
      intros [H _]. exfalso. clear Hhi Hlo.
      pose proof (Pos2Z.neg_is_neg m) as Hm.
      destruct e as [| p | p]; unfold Qle in H; cbn [Qnum Qden inject_Z] in H.
      * lia.
      * assert (0 < 2 ^ Zpos p) by (apply Z.pow_pos_nonneg; lia).
        set (zp := 2 ^ Zpos p) in *. set (zm := Zneg m) in *. nia.
      * lia.
    + assert (H0 : SFltb (S754_finite false m e) (S754_zero false) = false)
        by reflexivity.
      rewrite H0. cbn [orb].
      assert (Hnn : (0 <= match e with
                          | Zneg p => Zpos m # 2 ^ p
                          | _ => inject_Z (Zpos m * 2 ^ e)
                          end)%Q).
      { destruct e as [| p | p]; unfold Qle; cbn [Qnum Qden inject_Z].
        - lia.
        - assert (0 < 2 ^ Zpos p) by (apply Z.pow_pos_nonneg; lia).
          set (zp := 2 ^ Zpos p) in *. set (zm := Zpos m) in *.
          assert (0 < zm) by (subst zm; lia). nia.
        - lia. }
      unfold SFltb, SFcompare.
      destruct (Z.compare_spec (-50) e) as [He | He | He].
      * subst e. rewrite Pos.compare_cont_spec. cbn [Pos.switch_Eq].
        rewrite Pos2Z.inj_compare. clear Hlo Hnn.
        unfold Qle; cbn [Qnum Qden]. rewrite Pos2Z.inj_pow.
        change (2 ^ 50) with 1125899906842624.
        set (zm := Zpos m) in *. assert (0 < zm) by (subst zm; lia).
        destruct (Z.compare_spec 4503599627370496 zm) as [Hm | Hm | Hm];
          split; try discriminate; try (intros _; split; lia).
        intros [_ H1]. lia.
      * split; [discriminate |]. intros [_ H]. exfalso.
        assert (Hm : 4503599627370496 <= Zpos m) by (apply Hlo; lia).
        clear Hlo Hhi Hnn. set (zm := Zpos m) in *.
        destruct e as [| p | p]; unfold Qle in H; cbn [Qnum Qden inject_Z] in H.
        -- lia.
        -- assert (0 < 2 ^ Zpos p) by (apply Z.pow_pos_nonneg; lia).
           set (zp := 2 ^ Zpos p) in *. nia.
        -- rewrite Pos2Z.inj_pow in H.
           assert (Hp : 2 ^ Zpos p <= 2 ^ 49) by (apply Z.pow_le_mono_r; lia).
           change (2 ^ 49) with 562949953421312 in Hp.
           set (zp := 2 ^ Zpos p) in *. lia.
      * split; [intros _ | reflexivity]. split; [exact Hnn |].
        destruct e as [| p | p]; try lia. clear Hnn Hlo.
        unfold Qle; cbn [Qnum Qden]. rewrite Pos2Z.inj_pow.
        assert (Hp : 2 ^ 51 <= 2 ^ Zpos p) by (apply Z.pow_le_mono_r; lia).
        change (2 ^ 51) with 2251799813685248 in Hp.
        set (zm := Zpos m) in *. set (zp := 2 ^ Zpos p) in *. lia.
Qed.

Lemma gpa_of_entry_inl (entry : string) (g : float) :
  gpa_of_entry entry = inl g <->
  py_float (PyStr entry) = Ok g
  /\ (g <? Config.MIN_GPA)%float || (Config.MAX_GPA <? g)%float = false.
Proof.
  unfold gpa_of_entry.
  destruct (py_float (PyStr entry)) as [g' | e].
  - destruct ((g' <? Config.MIN_GPA)%float || (Config.MAX_GPA <? g')%float)
      eqn:E; split.
    + discriminate.
    + intros [H1 H2]. injection H1 as ->. rewrite E in H2. discriminate.
    + intros H. injection H as ->. split; [reflexivity | exact E].
    + intros [H1 _]. injection H1 as ->. reflexivity.
  - destruct (contains "Invalid GPA" entry); split;
      solve [discriminate | intros [H _]; discriminate H].
Qed.

(** X14: the GPA check of the add and update dialogs accepts the text of
    the entry exactly when [float] reads it as a number in [0.0, 4.0] or
    as NaN, which neither comparison of the check catches; text [float]
    does not read is refused. *)
Theorem gpa_of_entry_range (entry : string) :
  (forall g, py_float (PyStr entry) = Ok g ->
     (gpa_of_entry entry = inl g <->
      Prim2SF g = S754_nan
      \/ exists q, Q_of_float g = Some q /\ (0 <= q)%Q /\ (q <= 4)%Q))
  /\ (float_of_str entry = None -> exists t, gpa_of_entry entry = inr t).
Proof.
  split.
  - intros g Hg. rewrite gpa_of_entry_inl. split.
    + intros [_ H]. unfold Q_of_float.
      pose proof (range_check_rational g) as Hr. unfold Q_of_float in Hr.
      destruct (Prim2SF g) as [s | s | | s m e] eqn:E.
      * right. eexists. split; [reflexivity |]. apply (Hr _ eq_refl), H.
      * exfalso. rewrite !ltb_spec, E in H.
        destruct min_max_SF as [H0 H4]. rewrite H0, H4 in H.
        destruct s; discriminate H.
      * left. reflexivity.
      * right. eexists. split; [reflexivity |]. apply (Hr _ eq_refl), H.
    + intros [Hnan | [q [Hq Hrange]]]; split; try exact Hg.
      * rewrite !ltb_spec, Hnan. reflexivity.
      * apply (range_check_rational g q Hq), Hrange.
  - intros H. unfold gpa_of_entry. cbn [py_float]. rewrite H.
    destruct (contains "Invalid GPA" entry); eexists; reflexivity.
Qed.

Lemma gpa_of_entry_range_witness :
  (gpa_of_entry "3.5" = inl 3.5%float <->
   Prim2SF 3.5 = S754_nan
   \/ exists q, Q_of_float 3.5 = Some q /\ (0 <= q)%Q /\ (q <= 4)%Q)
  /\ (gpa_of_entry "nan" = inl nan <->
      Prim2SF nan = S754_nan
      \/ exists q, Q_of_float nan = Some q /\ (0 <= q)%Q /\ (q <= 4)%Q)
  /\ exists t, gpa_of_entry "four" = inr t.
Proof.
  split; [| split].
  - apply (proj1 (gpa_of_entry_range "3.5")). vm_compute. reflexivity.
  - apply (proj1 (gpa_of_entry_range "nan")). vm_compute. reflexivity.
  - apply (proj2 (gpa_of_entry_range "four")). vm_compute. reflexivity.
Defined.

(** ** The add dialog *)



Lemma strip_not_blank (s : string) :
  truthy (strip s) = true -> blank (strip s) = false.
Proof.
  intros H. rewrite blank_all_space, all_space_strip.
  destruct (all_space s) eqn:E; [| reflexivity].
  rewrite <- all_space_lstrip in E. apply rstrip_empty in E.
  unfold strip in H. rewrite E in H. discriminate H.
Qed.

(** What the checks of the dialogs let through. *)
Lemma checked_inl (f : fields) sid nm ag em dept g yr :
  checked f = inl (sid, nm, ag, em, dept, g, yr) ->
  sid = strip (Student_ID f) /\ nm = strip (Name f) /\ em = strip (Email f)
  /\ dept = Department f /\ Department f <> "Select Department"
  /\ blank sid = false /\ blank nm = false
  /\ py_int (PyStr (Age f)) = Ok ag
  /\ gpa_of_entry (GPA f) = inl g
  /\ year_of_entry (Graduation_Year f) = Ok yr.
Proof.
  unfold checked.
  destruct (truthy (strip (Student_ID f))) eqn:Hs; cbn [negb]; [| discriminate].
  destruct (truthy (strip (Name f))) eqn:Hn; cbn [negb]; [| discriminate].
  destruct (String.eqb_spec (Department f) "Select Department") as [| Hd];
    [discriminate |].
  unfold age_of_entry.
  destruct (py_int (PyStr (Age f))) as [ag' | e]; [| discriminate].
  destruct (gpa_of_entry (GPA f)) as [g' | t]; [| discriminate].
  destruct (year_of_entry (Graduation_Year f)) as [yr' | e]; [| discriminate].
  intros H. injection H as <- <- <- <- <- <- <-.
  repeat split; try assumption; apply strip_not_blank; assumption.
Qed.





Lemma app_same (a : app) :
  {| store := store a; table := table a; selection := selection a;
     selected_record := selected_record a; db_id := db_id a |} = a.
Proof. destruct a. reflexivity. Qed.

(** X16: in the add dialog, entries that pass the checks, with an age
    and a gpa that are stored as bound, and that carry a student id the
    store already holds (after stripping) are answered with the "Database
    Error" box of the connection manager; store, table and selection stay
    as they were. *)
Theorem save_duplicate_student_id (f : fields) (a : app) (r : row)
    (args : string * string * Z * string * string * float * Z) :
  entries_stored f ->
  checked f = inl args ->
  In r (student (store a)) -> student_id r = strip (Student_ID f) ->
  save f a = (DatabaseError DatabaseConnectionError, a).
Proof.
  destruct args as [[[[[[sid nm] ag] em] dept] g] yr].
  intros _ Hc Hr Hsid. unfold save. rewrite Hc.
  apply checked_inl in Hc.
  destruct Hc as [-> [-> [-> [-> [_ [Hbs [Hbn _]]]]]]].
  rewrite add_student_record_eq, Hbs, Hbn.
  assert (Hdup : existsb (has_student_id (strip (Student_ID f)))
                         (student (store a)) = true).
  { apply existsb_exists. exists r. split; [exact Hr |].
    apply String.eqb_eq, Hsid. }
  rewrite Hdup. cbn [shown]. rewrite app_same. reflexivity.
Qed.

Lemma save_duplicate_student_id_witness :
  save (mkFields "S1 " "Al" "21" "al@x.com" "Biology" "3.0" "2027")
       (start ann_and_bo)
  = (DatabaseError DatabaseConnectionError, start ann_and_bo).
Proof.
  apply (save_duplicate_student_id
           (mkFields "S1 " "Al" "21" "al@x.com" "Biology" "3.0" "2027")
           (start ann_and_bo)
           (row_of 1 "S1" "Ann" 20 "a@x.com" "Physics" 2.0 2026)
           ("S1", "Al", 21, "al@x.com", "Biology", 3.0%float, 2027)).
  - split; stored_value.
  - vm_compute. reflexivity.
  - left. reflexivity.
  - reflexivity.
Defined.

Lemma update_record_of_raises rid sid nm ag em dept g yr db e db' :
  update_record_of rid sid nm ag em dept g yr db = (Raise e, db') -> db' = db.
Proof.
  destruct rid as [i |]; cbn [update_record_of].
  - rewrite update_record_eq.
    repeat match goal with
           | |- context [if ?b then _ else _] => destruct b
           end; intros H; inversion H; reflexivity.
  - unfold raise.
    repeat match goal with
           | |- context [if ?b then _ else _] => destruct b
           end; intros H; inversion H; reflexivity.
Qed.

Lemma delete_record_of_raises rid db e db' :
  delete_record_of rid db = (Raise e, db') -> db' = db.
Proof.
  destruct rid as [i |]; cbn [delete_record_of].
  - rewrite delete_record_eq.
    repeat match goal with
           | |- context [if ?b then _ else _] => destruct b
           end; intros H; inversion H; reflexivity.
  - unfold raise. intros H. inversion H. reflexivity.
Qed.

Lemma add_student_record_raises sid nm ag em dept g yr db e db' :
  add_student_record sid nm ag em dept g yr db = (Raise e, db') -> db' = db.
Proof.
  rewrite add_student_record_eq.
  repeat match goal with
         | |- context [if ?b then _ else _] => destruct b
         end; intros H; inversion H; reflexivity.
Qed.

(** X17: a dialog that does not report success has changed nothing: after
    the add dialog, the update dialog or the delete dialog shows anything
    but its success box, the store, the table and the remembered record
    are what they were.  The age and the gpa of the entries are such as
    are stored as bound. *)
Theorem dialogs_change_nothing_unless_success
    (f : fields) (confirm : bool) (a : app) :
  entries_stored f ->
  (fst (save f a) <> Success -> snd (save f a) = a)
  /\ (fst (update f a) <> Success -> snd (update f a) = a)
  /\ (fst (show_delete_dialog confirm a) <> Success ->
      snd (show_delete_dialog confirm a) = a).
Proof.
  intros _. split; [| split].
  - unfold save.
    destruct (checked f) as [[[[[[[sid nm] ag] em] dept] g] yr] | o];
      [| reflexivity].
    destruct (add_student_record sid nm ag em dept g yr (store a))
      as [[b | e] db] eqn:E; cbn [fst snd].
    + intros H. contradiction H. reflexivity.
    + intros _. rewrite (add_student_record_raises _ _ _ _ _ _ _ _ _ _ E).
      apply app_same.
  - unfold update.
    destruct (selected_record a) eqn:Es; [| reflexivity].
    destruct (checked f) as [[[[[[[sid nm] ag] em] dept] g] yr] | o];
      [| reflexivity].
    destruct (update_record_of (db_id a) sid nm ag em dept g yr (store a))
      as [[b | e] db] eqn:E; cbn [fst snd].
    + intros H. contradiction H. reflexivity.
    + intros _. rewrite (update_record_of_raises _ _ _ _ _ _ _ _ _ _ _ E).
      rewrite <- Es. apply app_same.
  - unfold show_delete_dialog.
    destruct (selected_record a) eqn:Es; [| reflexivity].
    destruct confirm; [| reflexivity].
    destruct (delete_record_of (db_id a) (store a)) as [[b | e] db] eqn:E;
      cbn [fst snd].
    + intros H. contradiction H. reflexivity.
    + intros _. rewrite (delete_record_of_raises _ _ _ _ E).
      rewrite <- Es. apply app_same.
Qed.

Lemma dialogs_change_nothing_unless_success_witness :
  (fst (save (mkFields "S1" "Al" "21" "" "Biology" "4.5" "2027")
             (click 0 (start ann_and_bo))) <> Success ->
   snd (save (mkFields "S1" "Al" "21" "" "Biology" "4.5" "2027")
             (click 0 (start ann_and_bo)))
   = click 0 (start ann_and_bo))
  /\ (fst (update (mkFields "S1" "Al" "21" "" "Biology" "4.5" "2027")
                  (click 0 (start ann_and_bo))) <> Success ->
      snd (update (mkFields "S1" "Al" "21" "" "Biology" "4.5" "2027")
                  (click 0 (start ann_and_bo)))
      = click 0 (start ann_and_bo))
  /\ (fst (show_delete_dialog false (click 0 (start ann_and_bo))) <> Success ->
      snd (show_delete_dialog false (click 0 (start ann_and_bo)))
      = click 0 (start ann_and_bo)).
Proof.
  apply (dialogs_change_nothing_unless_success
           (mkFields "S1" "Al" "21" "" "Biology" "4.5" "2027") false
           (click 0 (start ann_and_bo))).
  split; stored_value.
Defined.

(** ** The states of the application *)

Lemma lstrip_head (s : string) (c : ascii) (t : string) :
  lstrip s = String c t -> py_isspace c = false.
Proof.
  induction s as [| d s IH]; cbn [lstrip]; [discriminate |].
  destruct (py_isspace d) eqn:E; [exact IH |].
  intros H. injection H as <- _. exact E.
Qed.

Lemma rstrip_head (c : ascii) (t : string) :
  py_isspace c = false -> exists u, rstrip (String c t) = String c u.
Proof.
  intros H. cbn [rstrip].
  destruct (rstrip t); [rewrite H |]; eexists; reflexivity.
Qed.

Lemma rstrip_rstrip (s : string) : rstrip (rstrip s) = rstrip s.
Proof.
  induction s as [| c s IH]; [reflexivity |].
  cbn [rstrip]. destruct (rstrip s) as [| d u] eqn:E.
  - destruct (py_isspace c) eqn:Ec; [reflexivity |].
    cbn [rstrip]. rewrite Ec. reflexivity.
  - cbn [rstrip] in IH |- *. rewrite IH. reflexivity.
Qed.

Lemma strip_stripped (s : string) : stripped (strip s).
Proof.
  unfold stripped, strip.
  destruct (lstrip s) as [| c t] eqn:E; [reflexivity |].
  apply lstrip_head in E.
  destruct (rstrip_head c t E) as [u Hu]. rewrite Hu.
  cbn [lstrip]. rewrite E, <- Hu. apply rstrip_rstrip.
Qed.

Lemma add_keeps_stripped sid nm ag em dept g yr db :
  stripped sid -> stripped nm -> stripped em ->
  Forall text_stripped (student db) ->
  Forall text_stripped
    (student (snd (add_student_record sid nm ag em dept g yr db))).
Proof.
  intros Hs Hn He H. rewrite add_student_record_eq. store_unchanged H.
  cbn [snd student]. apply Forall_app. split; [exact H |].
  constructor; [| constructor]. split; [| split]; assumption.
Qed.

Lemma update_keeps_stripped rid sid nm ag em dept g yr db :
  stripped sid -> stripped nm -> stripped em ->
  Forall text_stripped (student db) ->
  Forall text_stripped
    (student (snd (update_record rid sid nm ag em dept g yr db))).
Proof.
  intros Hs Hn He H. rewrite update_record_eq. store_unchanged H.
  cbn [snd student]. apply Forall_map.
  apply Forall_impl with (2 := H). intros r Hr.
  destruct (has_id rid r); [split; [| split]; assumption | exact Hr].
Qed.

Lemma delete_keeps_stripped rid db :
  Forall text_stripped (student db) ->
  Forall text_stripped (student (snd (delete_record rid db))).
Proof.
  intros H. rewrite delete_record_eq. store_unchanged H.
  cbn [snd student]. rewrite Forall_forall in *.
  intros r Hr. apply filter_In in Hr. apply H. exact (proj1 Hr).
Qed.

(** What holds of the store before an import and is kept by adding a
    record with stripped text holds after the import. *)
Section ImportKeeps.

Variable Q : database -> Prop.

Hypothesis add_keeps :
  forall s n ag e d g yr db,
    Q db ->
    Q (snd (add_student_record (strip s) (strip n) ag (strip e) (strip d)
                               g yr db)).

Lemma import_row_keeps (d : dict) (db : database) :
  Q db -> Q (snd (import_row d db)).
Proof.
  intros H. unfold import_row, bind, lift.
  repeat match goal with
         | |- context [value_strip ?v] =>
             destruct v; cbn [value_strip]; try exact H
         | |- context [match ?r with Ok _ => _ | Raise _ => _ end] =>
             destruct r; [| exact H]
         end;
    try exact H.
  apply add_keeps, H.
Qed.

Lemma import_loop_keeps (fieldnames : list string) (rows : csv_rows) :
  forall imported skipped db,
    Q db -> Q (snd (import_loop fieldnames rows imported skipped db)).
Proof.
  induction rows as [| row rows IH]; intros imported skipped db H.
  - exact H.
  - destruct row as [| field row]; [apply IH, H |].
    rewrite import_loop_step.
    pose proof (import_row_keeps (dict_row fieldnames (field :: row) []) db H)
      as H1.
    destruct (import_row (dict_row fieldnames (field :: row) []) db)
      as [[b | e] db1]; cbn [snd] in H1.
    + apply IH, H1.
    + destruct e; try exact H1. apply IH, H1.
Qed.

Lemma import_csv_keeps (file_path : string) (file : csv_rows) (db : database) :
  Q db -> Q (snd (import_csv file_path file db)).
Proof.
  intros H. unfold import_csv.
  destruct (truthy file_path); cbn [negb]; [| exact H].
  destruct file as [| fieldnames rows]; [exact H |].
  destruct fieldnames as [| f fieldnames]; [exact H |].
  unfold try_except, bind, ret.
  pose proof (import_loop_keeps (f :: fieldnames) rows 0 0 db H) as H1.
  destruct (import_loop (f :: fieldnames) rows 0 0 db) as [[c | e] db1];
    exact H1.
Qed.

End ImportKeeps.

Lemma display_all_records_eq (a : app) :
  display_all_records a =
  {| store := store a;
     table := map item_values (order_by_name (student (store a)));
     selection := None;
     selected_record := selected_record a;
     db_id := db_id a |}.
Proof. reflexivity. Qed.

Lemma remember_cases (values : list value) (a : app) :
  remember values a = a
  \/ exists record,
       find (fun record => shows (student_id record) values)
            (order_by_name (student (store a))) = Some record
       /\ remember values a =
          {| store := store a; table := table a; selection := selection a;
             selected_record := Some record; db_id := Some (id record) |}.
Proof.
  unfold remember. rewrite view_all_records_eq.
  destruct (find _ _) as [record |].
  - right. exists record. split; reflexivity.
  - left. apply app_same.
Qed.

Lemma display_keeps (a : app) : well_kept a -> well_kept (display_all_records a).
Proof. intros H. exact H. Qed.

Lemma save_keeps (f : fields) (a : app) :
  well_kept a -> well_kept (snd (save f a)).
Proof.
  intros [Hr [Ht Hs]]. unfold save.
  destruct (checked f) as [[[[[[[sid nm] ag] em] dept] g] yr] | o] eqn:Hc;
    [| repeat split; assumption].
  apply checked_inl in Hc. destruct Hc as [-> [-> [-> _]]].
  pose proof (reach_add _ (strip (Student_ID f)) (strip (Name f)) ag
                        (strip (Email f)) dept g yr Hr) as Hr'.
  pose proof (add_keeps_stripped (strip (Student_ID f)) (strip (Name f)) ag
                (strip (Email f)) dept g yr (store a)
                (strip_stripped _) (strip_stripped _) (strip_stripped _) Ht)
    as Ht'.
  destruct (add_student_record _ _ _ _ _ _ _ (store a)) as [[b | e] db];
    cbn [snd] in *; repeat split; assumption.
Qed.

Lemma update_keeps (f : fields) (a : app) :
  well_kept a -> well_kept (snd (update f a)).
Proof.
  intros [Hr [Ht Hs]]. unfold update.
  destruct (selected_record a) as [r |] eqn:Er; [| repeat split; assumption].
  destruct (checked f) as [[[[[[[sid nm] ag] em] dept] g] yr] | o] eqn:Hc;
    [| repeat split; assumption].
  apply checked_inl in Hc. destruct Hc as [-> [-> [-> _]]].
  assert (Hs' : forall db tb sel,
             selection_coherent
               {| store := db; table := tb; selection := sel;
                  selected_record := Some r; db_id := db_id a |}).
  { intros db tb sel. unfold selection_coherent in *. cbn.
    rewrite Er in Hs. exact Hs. }
  destruct (db_id a) as [i |] eqn:Ei; cbn [update_record_of].
  - pose proof (reach_update _ i (strip (Student_ID f)) (strip (Name f)) ag
                             (strip (Email f)) dept g yr Hr) as Hr'.
    pose proof (update_keeps_stripped i (strip (Student_ID f)) (strip (Name f))
                  ag (strip (Email f)) dept g yr (store a)
                  (strip_stripped _) (strip_stripped _) (strip_stripped _) Ht)
      as Ht'.
    destruct (update_record _ _ _ _ _ _ _ _ (store a)) as [[b | e] db];
      cbn [snd] in *; (split; [| split]);
      first [assumption | apply Hs'].
  - unfold raise.
    destruct (blank _); [| destruct (blank _)];
      cbn [snd]; (split; [| split]); first [assumption | apply Hs'].
Qed.

Lemma delete_keeps (confirm : bool) (a : app) :
  well_kept a -> well_kept (snd (show_delete_dialog confirm a)).
Proof.
  intros [Hr [Ht Hs]]. unfold show_delete_dialog.
  destruct (selected_record a) as [r |] eqn:Er; [| repeat split; assumption].
  destruct confirm; [| repeat split; assumption].
  assert (Hs' : forall db tb sel,
             selection_coherent
               {| store := db; table := tb; selection := sel;
                  selected_record := Some r; db_id := db_id a |}).
  { intros db tb sel. unfold selection_coherent in *. cbn.
    rewrite Er in Hs. exact Hs. }
  destruct (db_id a) as [i |] eqn:Ei; cbn [delete_record_of].
  - pose proof (reach_delete _ i Hr) as Hr'.
    pose proof (delete_keeps_stripped i (store a) Ht) as Ht'.
    destruct (delete_record i (store a)) as [[b | e] db];
      cbn [snd] in *; (split; [| split]);
      first [assumption | apply Hs'].
  - cbn [snd]. (split; [| split]); first [assumption | apply Hs'].
Qed.

Lemma click_keeps (item : nat) (a : app) : well_kept a -> well_kept (click item a).
Proof.
  intros [Hr [Ht Hs]]. unfold click, on_table_click. cbn [selection table].
  set (a1 := {| store := store a; table := table a;
                selection := if (item <? List.length (table a))%nat
                             then Some item else selection a;
                selected_record := selected_record a; db_id := db_id a |}).
  assert (H1 : well_kept a1) by (repeat split; assumption).
  destruct (if (item <? List.length (table a))%nat then Some item
            else selection a) as [k |]; [| exact H1].
  destruct (nth_error (table a) k) as [values |]; [| exact H1].
  destruct (remember_cases values a1) as [-> | [record [_ ->]]]; [exact H1 |].
  split; [exact Hr | split; [exact Ht |]]. reflexivity.
Qed.

Lemma search_keeps (term : string) (a : app) :
  well_kept a -> well_kept (snd (search_student term a)).
Proof.
  intros H. unfold search_student.
  destruct (negb (truthy (strip term))); [exact H |].
  rewrite search_by_student_id_eq.
  destruct (blank (strip term)); [rewrite app_same; exact H |].
  destruct (find _ _) as [record |]; [| rewrite app_same; exact H].
  rewrite app_same. cbn [snd]. unfold _highlight_record.
  destruct (first_item _ _); [| exact H].
  destruct H as [Hr [Ht Hs]].
  split; [exact Hr | split; [exact Ht |]]. reflexivity.
Qed.

Lemma import_keeps (file_path : string) (file : csv_rows) (a : app) :
  well_kept a -> well_kept (snd (import_and_display file_path file a)).
Proof.
  intros [Hr [Ht Hs]]. unfold import_and_display.
  assert (H : reachable (snd (import_csv file_path file (store a)))
              /\ Forall text_stripped
                        (student (snd (import_csv file_path file (store a))))).
  { apply (import_csv_keeps
             (fun db => reachable db /\ Forall text_stripped (student db))).
    - intros s n ag e d g yr db [H1 H2]. split.
      + apply reach_add, H1.
      + apply add_keeps_stripped;
          first [apply strip_stripped | exact H2].
    - split; assumption. }
  destruct H as [Hr' Ht'].
  destruct (import_csv file_path file (store a)) as [[o | e] db];
    cbn [snd] in *; [destruct o |]; repeat split; assumption.
Qed.

Lemma well_kept_invariant (a : app) : app_reachable a -> well_kept a.
Proof.
  induction 1 as [| f a _ _ IH | f a _ _ IH | confirm a _ IH | item a _ IH
                  | term a _ IH | a _ IH | file_path file a _ _ IH].
  - repeat split; constructor.
  - apply save_keeps, IH.
  - apply update_keeps, IH.
  - apply delete_keeps, IH.
  - apply click_keeps, IH.
  - apply search_keeps, IH.
  - apply display_keeps, IH.
  - apply import_keeps, IH.
Qed.

(** X18: in every state the application reaches from its start on a fresh
    database by its dialogs, clicks, searches and imports, with entries
    and files whose ages, years and gpas are stored as bound, the store is
    one reached by add, update and delete; the student id, the name and
    the email of every record have no whitespace at either end; and the
    remembered record and the remembered id are both unset, or the id is
    that of the record. *)
Theorem app_state_invariant (a : app) :
  app_reachable a ->
  reachable (store a)
  /\ Forall text_stripped (student (store a))
  /\ selection_coherent a.
Proof. exact (well_kept_invariant a). Qed.

Lemma app_state_invariant_witness :
  reachable (store (snd (save cy_fields (start empty_database))))
  /\ Forall text_stripped
            (student (store (snd (save cy_fields (start empty_database)))))
  /\ selection_coherent (snd (save cy_fields (start empty_database))).
Proof.
  apply (app_state_invariant (snd (save cy_fields (start empty_database)))).
  apply app_save; [split; stored_value | apply app_start].
Defined.

(** ** Finding a record by its student id *)

Lemma find_by_student_id (p : row -> bool) (l : list row) (r : row) :
  (forall x, p x = (student_id x =? student_id r)%string) ->
  NoDup (map student_id l) -> In r l -> find p l = Some r.
Proof.
  intros Hp Hnd Hin. destruct (find p l) as [x |] eqn:E.
  - apply find_some in E. destruct E as [Hx Hpx]. rewrite Hp in Hpx.
    apply String.eqb_eq in Hpx. f_equal.
    exact (NoDup_map_inj student_id l x r Hnd Hx Hin Hpx).
  - pose proof (find_none _ _ E r Hin) as H.
    rewrite Hp, String.eqb_refl in H. discriminate H.
Qed.

Lemma first_item_by_student_id (l : list row) (r : row) :
  NoDup (map student_id l) -> In r l ->
  exists k, first_item (student_id r) (map item_values l) = Some k
            /\ nth_error l k = Some r.
Proof.
  induction l as [| x l IH]; intros Hnd Hin; [contradiction |].
  cbn [map first_item].
  change (shows (student_id r) (item_values x))
    with (student_id r =? student_id x)%string.
  destruct (String.eqb_spec (student_id r) (student_id x)) as [E | E].
  - exists 0%nat. split; [reflexivity |]. cbn [nth_error]. f_equal.
    apply (NoDup_map_inj student_id (x :: l) x r Hnd);
      [left; reflexivity | exact Hin | symmetry; exact E].
  - destruct Hin as [-> | Hin]; [contradiction E; reflexivity |].
    cbn [map] in Hnd. apply NoDup_cons_iff in Hnd. destruct Hnd as [_ Hnd].
    destruct (IH Hnd Hin) as [k [Hk Hn]].
    exists (S k). rewrite Hk. split; [reflexivity | exact Hn].
Qed.

Lemma order_by_name_keys (db : database) :
  reachable db -> NoDup (map student_id (order_by_name (student db))).
Proof.
  intros H. apply (Permutation_NoDup (l := map student_id (student db))).
  - apply Permutation_map, Permutation_sym, order_by_name_perm.
  - exact (proj1 (proj2 (keys_unique_invariant _ H))).
Qed.

Lemma order_by_name_In (rows : list row) (r : row) :
  In r (order_by_name rows) <-> In r rows.
Proof.
  split; apply Permutation_in;
    [| apply Permutation_sym]; apply order_by_name_perm.
Qed.

(** X19: in a store reached by add, update and delete whose records the
    table shows, a search for the student id of a record, typed with any
    whitespace around it, reports the student as found under its name,
    selects the item of the table that shows the record, and remembers the
    record and its id for the update and delete dialogs; the store and the
    table stay. *)
Theorem search_student_finds (term : string) (a : app) (r : row) :
  reachable (store a) -> in_sync a ->
  In r (student (store a)) -> strip term = student_id r ->
  exists k,
    nth_error (table a) k = Some (item_values r)
    /\ search_student term a =
       (Found (name r),
        {| store := store a; table := table a; selection := Some k;
           selected_record := Some r; db_id := Some (id r) |}).
Proof.
  intros Hreach Hsync Hin Hterm. unfold search_student. rewrite Hterm.
  pose proof (fields_present_invariant _ Hreach) as Hf.
  rewrite Forall_forall in Hf. destruct (Hf r Hin) as [Hb _].
  assert (Ht : truthy (student_id r) = true).
  { unfold blank in Hb.
    destruct (truthy (student_id r)); [reflexivity | discriminate Hb]. }
  rewrite Ht. cbn [negb]. rewrite search_by_student_id_eq, Hb.
  rewrite (find_by_student_id _ _ r);
    [| intros x; reflexivity
     | exact (proj1 (proj2 (keys_unique_invariant _ Hreach)))
     | exact Hin].
  rewrite app_same. unfold _highlight_record.
  destruct (first_item_by_student_id (order_by_name (student (store a))) r)
    as [k [Hk Hn]];
    [exact (order_by_name_keys _ Hreach) | apply order_by_name_In, Hin |].
  unfold in_sync in Hsync. rewrite <- Hsync in Hk. rewrite Hk.
  exists k. split; [| reflexivity].
  rewrite Hsync. apply map_nth_error, Hn.
Qed.

Lemma search_student_finds_witness :
  exists k,
    nth_error (table (start ann_and_bo)) k
    = Some (item_values (row_of 2 "S2" "Bo" 22 "b@x.com" "Chemistry" 3.5 2025))
    /\ search_student "  S2 " (start ann_and_bo) =
       (Found "Bo",
        {| store := ann_and_bo; table := table (start ann_and_bo);
           selection := Some k;
           selected_record :=
             Some (row_of 2 "S2" "Bo" 22 "b@x.com" "Chemistry" 3.5 2025);
           db_id := Some 2 |}).
Proof.
  apply (search_student_finds
           "  S2 " (start ann_and_bo)
           (row_of 2 "S2" "Bo" 22 "b@x.com" "Chemistry" 3.5 2025)).
  - unfold ann_and_bo, ann_only. apply reach_add, reach_add, reach_init.
  - reflexivity.
  - right. left. reflexivity.
  - reflexivity.
Defined.

(** ** Clicking, then deleting or updating *)

Lemma click_eq (k : nat) (a : app) (r : row) :
  reachable (store a) -> in_sync a ->
  nth_error (order_by_name (student (store a))) k = Some r ->
  click k a = {| store := store a; table := table a; selection := Some k;
                 selected_record := Some r; db_id := Some (id r) |}.
Proof.
  intros Hreach Hsync Hn. unfold in_sync in Hsync.
  assert (Hitem : nth_error (table a) k = Some (item_values r)).
  { rewrite Hsync. apply map_nth_error, Hn. }
  assert (Hlt : (k <? List.length (table a))%nat = true).
  { apply Nat.ltb_lt, nth_error_Some. rewrite Hitem. discriminate. }
  unfold click, on_table_click. cbn [selection table]. rewrite Hlt, Hitem.
  unfold remember. rewrite view_all_records_eq. cbn [store].
  rewrite (find_by_student_id _ _ r);
    [reflexivity
    | intros x; reflexivity
    | exact (order_by_name_keys _ Hreach)
    | exact (nth_error_In _ _ Hn)].
Qed.

(** X20: in a store reached by add, update and delete whose records the
    table shows, a click on the item at a position remembers the record
    shown there, with its id, for the update and delete dialogs; a click
    below the last item, with nothing selected before, changes nothing. *)
Theorem click_selects (k : nat) (a : app) :
  reachable (store a) -> in_sync a ->
  match nth_error (order_by_name (student (store a))) k with
  | Some r =>
      nth_error (table a) k = Some (item_values r)
      /\ click k a = {| store := store a; table := table a;
                        selection := Some k;
                        selected_record := Some r; db_id := Some (id r) |}
  | None => selection a = None -> click k a = a
  end.
Proof.
  intros Hreach Hsync.
  destruct (nth_error (order_by_name (student (store a))) k) as [r |] eqn:Hn.
  - split; [| exact (click_eq k a r Hreach Hsync Hn)].
    unfold in_sync in Hsync. rewrite Hsync. apply map_nth_error, Hn.
  - intros Hnone. unfold click, on_table_click. cbn [selection table].
    apply nth_error_None in Hn.
    assert (Hlt : (k <? List.length (table a))%nat = false).
    { apply Nat.ltb_ge. unfold in_sync in Hsync.
      rewrite Hsync, length_map. exact Hn. }
    rewrite Hlt, Hnone. rewrite <- Hnone. apply app_same.
Qed.

Lemma click_selects_witness :
  match nth_error (order_by_name (student (store (start ann_and_bo)))) 1 with
  | Some r =>
      nth_error (table (start ann_and_bo)) 1 = Some (item_values r)
      /\ click 1 (start ann_and_bo)
         = {| store := store (start ann_and_bo);
              table := table (start ann_and_bo);
              selection := Some 1%nat;
              selected_record := Some r; db_id := Some (id r) |}
  | None => selection (start ann_and_bo) = None ->
            click 1 (start ann_and_bo) = start ann_and_bo
  end.
Proof.
  apply (click_selects 1 (start ann_and_bo)).
  - unfold ann_and_bo, ann_only. apply reach_add, reach_add, reach_init.
  - reflexivity.
Defined.

Lemma same_id_same_record (db : database) (x r : row) :
  reachable db -> In x (student db) -> In r (student db) ->
  has_id (id r) x = true -> x = r.
Proof.
  intros Hreach Hx Hr H. apply Z.eqb_eq in H.
  exact (NoDup_map_inj id _ x r (proj1 (keys_unique_invariant _ Hreach))
                       Hx Hr H).
Qed.

(** X21: in a store reached by add, update and delete whose records the
    table shows, a click on the item of a record and a confirmed delete
    dialog report success and remove that record and no other, and the
    table shows the records that are left.  The deleted record stays
    remembered: a second confirmed delete dialog, with no click between,
    shows the error of a record that is not found and changes nothing. *)
Theorem delete_clicked_record (k : nat) (a : app) (r : row) :
  reachable (store a) -> in_sync a ->
  nth_error (order_by_name (student (store a))) k = Some r ->
  exists a',
    show_delete_dialog true (click k a) = (Success, a')
    /\ (forall x, In x (student (store a'))
                  <-> In x (student (store a)) /\ x <> r)
    /\ in_sync a'
    /\ show_delete_dialog true a'
       = (DeleteError (ValueError RecordNotFound), a').
Proof.
  intros Hreach Hsync Hn.
  assert (Hin : In r (student (store a))).
  { apply order_by_name_In. exact (nth_error_In _ _ Hn). }
  rewrite (click_eq k a r Hreach Hsync Hn).
  destruct (keys_unique_invariant _ Hreach) as [_ [_ [Hpos _]]].
  rewrite Forall_forall in Hpos. specialize (Hpos r Hin).
  assert (Hhit : existsb (has_id (id r)) (student (store a)) = true).
  { apply existsb_exists. exists r. split; [exact Hin |]. apply Z.eqb_refl. }
  assert (Hgone : existsb (has_id (id r))
                    (filter (fun x => negb (has_id (id r) x))
                            (student (store a))) = false).
  { apply existsb_false_iff. intros x Hx. apply filter_In in Hx.
    destruct Hx as [_ Hx]. destruct (has_id (id r) x); [discriminate Hx |].
    reflexivity. }
  unfold show_delete_dialog.
  cbn [selected_record db_id store delete_record_of].
  rewrite delete_record_eq, Hhit.
  destruct (Z.leb_spec (id r) 0) as [Hle | _]; [lia |].
  cbn [negb]. eexists. split; [reflexivity |].
  rewrite display_all_records_eq.
  cbn [selected_record db_id store student delete_record_of].
  split; [| split; [reflexivity |]].
  - intros x. rewrite filter_In. split; intros [Hx Hne]; (split; [exact Hx |]).
    + intros ->. unfold has_id in Hne. rewrite Z.eqb_refl in Hne.
      discriminate Hne.
    + destruct (has_id (id r) x) eqn:E; [| reflexivity].
      contradiction Hne.
      exact (same_id_same_record _ x r Hreach Hx Hin E).
  - rewrite delete_record_eq. cbn [student]. rewrite Hgone.
    destruct (Z.leb_spec (id r) 0) as [Hle | _]; [lia |].
    reflexivity.
Qed.

Lemma delete_clicked_record_witness :
  exists a',
    show_delete_dialog true (click 0 (start ann_and_bo)) = (Success, a')
    /\ (forall x, In x (student (store a'))
                  <-> In x (student (store (start ann_and_bo)))
                      /\ x <> row_of 1 "S1" "Ann" 20 "a@x.com" "Physics" 2.0
                                     2026)
    /\ in_sync a'
    /\ show_delete_dialog true a'
       = (DeleteError (ValueError RecordNotFound), a').
Proof.
  apply (delete_clicked_record 0 (start ann_and_bo)).
  - unfold ann_and_bo, ann_only. apply reach_add, reach_add, reach_init.
  - reflexivity.
  - reflexivity.
Defined.

(** X22: in a store reached by add, update and delete whose records the
    table shows, a click on the item of a record and an update dialog with
    entries that pass the checks, and with a student id no other record
    has, report success: the record is replaced in its place, under its
    id, by the entries and the status of the new gpa, every other record
    stays, and the table shows the new store.  The student id of the
    record itself may be kept.  The age of the entries is an integer of
    64 bits and their gpa is kept as it is bound. *)
Theorem update_clicked_record
    (k : nat) (f : fields) (a : app) (r : row)
    (sid nm : string) (ag : Z) (em dept : string) (g : float) (yr : Z) :
  entries_kept f ->
  reachable (store a) -> in_sync a ->
  nth_error (order_by_name (student (store a))) k = Some r ->
  checked f = inl (sid, nm, ag, em, dept, g, yr) ->
  (forall x, In x (student (store a)) -> student_id x = sid -> x = r) ->
  exists a' before after,
    update f (click k a) = (Success, a')
    /\ student (store a) = (before ++ r :: after)%list
    /\ student (store a')
       = (before ++ row_of (id r) sid nm ag em dept g yr :: after)%list
    /\ in_sync a'.
Proof.
  intros _ Hreach Hsync Hn Hc Hother.
  assert (Hin : In r (student (store a))).
  { apply order_by_name_In. exact (nth_error_In _ _ Hn). }
  rewrite (click_eq k a r Hreach Hsync Hn).
  assert (Hhit : existsb (has_id (id r)) (student (store a)) = true).
  { apply existsb_exists. exists r. split; [exact Hin |]. apply Z.eqb_refl. }
  assert (Hfree : existsb (fun x => negb (has_id (id r) x)
                                    && has_student_id sid x)
                          (student (store a)) = false).
  { apply existsb_false_iff. intros x Hx.
    destruct (has_id (id r) x) eqn:E; [reflexivity |]. cbn [negb andb].
    unfold has_student_id.
    destruct (String.eqb_spec (student_id x) sid) as [Es |]; [| reflexivity].
    rewrite (Hother x Hx Es) in E. unfold has_id in E.
    rewrite Z.eqb_refl in E. discriminate E. }
  destruct (split_at_id (id r) _ (proj1 (keys_unique_invariant _ Hreach)) Hhit)
    as [before [old [after [E [Hold [Hb Ha]]]]]].
  assert (Hr : old = r).
  { apply (same_id_same_record (store a) old r Hreach); [| exact Hin |].
    - rewrite E. apply in_or_app. right. left. reflexivity.
    - apply Z.eqb_eq, Hold. }
  subst old.
  unfold update. cbn [selected_record db_id store update_record_of].
  rewrite Hc. apply checked_inl in Hc.
  destruct Hc as [_ [_ [_ [_ [_ [Hbs [Hbn _]]]]]]].
  rewrite update_record_eq, Hbs, Hbn, Hhit, Hfree. cbn [negb].
  eexists. exists before, after. split; [reflexivity |].
  split; [exact E |]. split; [| reflexivity].
  rewrite display_all_records_eq. cbn [store student].
  rewrite E, map_app. cbn [map].
  assert (Hhas : has_id (id r) r = true) by apply Z.eqb_refl.
  rewrite Hhas.
  rewrite (map_unchanged _ before), (map_unchanged _ after); [reflexivity | |].
  - intros x Hx. rewrite (Ha x Hx). reflexivity.
  - intros x Hx. rewrite (Hb x Hx). reflexivity.
Qed.

Lemma update_clicked_record_witness :
  exists a' before after,
    update (mkFields " S2" "Bo B" "23" "bo@x.com" "Physics" "2.0" "2025")
           (click 1 (start ann_and_bo)) = (Success, a')
    /\ student (store (start ann_and_bo))
       = (before ++ row_of 2 "S2" "Bo" 22 "b@x.com" "Chemistry" 3.5 2025
                 :: after)%list
    /\ student (store a')
       = (before ++ row_of 2 "S2" "Bo B" 23 "bo@x.com" "Physics" 2.0 2025
                 :: after)%list
    /\ in_sync a'.
Proof.
  apply (update_clicked_record
           1 (mkFields " S2" "Bo B" "23" "bo@x.com" "Physics" "2.0" "2025")
           (start ann_and_bo)
           (row_of 2 "S2" "Bo" 22 "b@x.com" "Chemistry" 3.5 2025)).
  - split; [split; stored_value | kept_gpa].
  - unfold ann_and_bo, ann_only. apply reach_add, reach_add, reach_init.
  - reflexivity.
  - reflexivity.
  - vm_compute. reflexivity.
  - intros x Hx H. vm_compute in Hx.
    destruct Hx as [<- | [<- | []]]; [discriminate H | reflexivity].
Defined.

(** ** The table and the store *)

Lemma import_csv_no_loop (file_path : string) (file : csv_rows)
    (db db' : database) (o : import_outcome) :
  import_csv file_path file db = (Ok o, db') ->
  match o with
  | ImportCancelled | EmptyCsvFile => db' = db
  | _ => True
  end.
Proof.
  unfold import_csv.
  destruct (truthy file_path); cbn [negb];
    [| intros H; injection H as <- <-; reflexivity].
  destruct file as [| fieldnames rows];
    [intros H; injection H as <- <-; reflexivity |].
  destruct fieldnames as [| field fieldnames];
    [intros H; injection H as <- <-; reflexivity |].
  unfold try_except, bind, ret.
  destruct (import_loop (field :: fieldnames) rows 0 0 db) as [[c | e] db1];
    intros H; injection H as <- <-; exact I.
Qed.

(** X23: when the table shows the records of the store, it still does
    after the add, update and delete dialogs, whatever they report, after
    a click, a search or a cleared search, and after an import that does
    not end in the "Import Error" box.  The ages, years and gpas of the
    entries and of the file are such as are stored as bound. *)
Theorem table_stays_in_sync (a : app) :
  in_sync a ->
  (forall f, entries_stored f -> in_sync (snd (save f a)))
  /\ (forall f, entries_stored f -> in_sync (snd (update f a)))
  /\ (forall confirm, in_sync (snd (show_delete_dialog confirm a)))
  /\ (forall item, in_sync (click item a))
  /\ (forall term, in_sync (snd (search_student term a)))
  /\ in_sync (clear_search a)
  /\ (forall file_path file,
        file_stored file ->
        (forall e, fst (import_and_display file_path file a) <> ImportError e) ->
        in_sync (snd (import_and_display file_path file a))).
Proof.
  intros Hsync.
  split; [| split; [| split; [| split; [| split; [| split]]]]].
  - intros f _. unfold save.
    destruct (checked f) as [[[[[[[sid nm] ag] em] dept] g] yr] | o];
      [| exact Hsync].
    destruct (add_student_record sid nm ag em dept g yr (store a))
      as [[b | e] db] eqn:E; [reflexivity |].
    rewrite (add_student_record_raises _ _ _ _ _ _ _ _ _ _ E). exact Hsync.
  - intros f _. unfold update.
    destruct (selected_record a); [| exact Hsync].
    destruct (checked f) as [[[[[[[sid nm] ag] em] dept] g] yr] | o];
      [| exact Hsync].
    destruct (update_record_of (db_id a) sid nm ag em dept g yr (store a))
      as [[b | e] db] eqn:E; [reflexivity |].
    rewrite (update_record_of_raises _ _ _ _ _ _ _ _ _ _ _ E). exact Hsync.
  - intros confirm. unfold show_delete_dialog.
    destruct (selected_record a); [| exact Hsync].
    destruct confirm; [| exact Hsync].
    destruct (delete_record_of (db_id a) (store a)) as [[b | e] db] eqn:E;
      [reflexivity |].
    rewrite (delete_record_of_raises _ _ _ _ E). exact Hsync.
  - intros item. unfold click, on_table_click. cbn [selection table].
    destruct (if (item <? List.length (table a))%nat then Some item
              else selection a) as [k |]; [| exact Hsync].
    destruct (nth_error (table a) k) as [values |]; [| exact Hsync].
    match goal with
    | |- in_sync (remember values ?a1) =>
        destruct (remember_cases values a1) as [-> | [record [_ ->]]]
    end; exact Hsync.
  - intros term. unfold search_student.
    destruct (negb (truthy (strip term))); [exact Hsync |].
    rewrite search_by_student_id_eq.
    destruct (blank (strip term)); [rewrite app_same; exact Hsync |].
    destruct (find _ _) as [record |]; [| rewrite app_same; exact Hsync].
    rewrite app_same. cbn [snd]. unfold _highlight_record.
    destruct (first_item _ _); exact Hsync.
  - reflexivity.
  - intros file_path file _ Hno. revert Hno. unfold import_and_display.
    destruct (import_csv file_path file (store a)) as [[o | e] db] eqn:E.
    + apply import_csv_no_loop in E.
      destruct o as [| | imported skipped | e]; cbn [fst snd]; intros Hno.
      * subst db. exact Hsync.
      * subst db. exact Hsync.
      * reflexivity.
      * contradiction (Hno e). reflexivity.
    + cbn [fst]. intros Hno. contradiction (Hno e). reflexivity.
Qed.

Lemma table_stays_in_sync_witness :
  (forall f, entries_stored f -> in_sync (snd (save f (start ann_and_bo))))
  /\ (forall f, entries_stored f ->
                in_sync (snd (update f (start ann_and_bo))))
  /\ (forall confirm,
        in_sync (snd (show_delete_dialog confirm (start ann_and_bo))))
  /\ (forall item, in_sync (click item (start ann_and_bo)))
  /\ (forall term, in_sync (snd (search_student term (start ann_and_bo))))
  /\ in_sync (clear_search (start ann_and_bo))
  /\ (forall file_path file,
        file_stored file ->
        (forall e, fst (import_and_display file_path file (start ann_and_bo))
                   <> ImportError e) ->
        in_sync (snd (import_and_display file_path file (start ann_and_bo)))).
Proof.
  apply (table_stays_in_sync (start ann_and_bo)). reflexivity.
Defined.

(** X24: an import that ends in the "Import Error" box does not fill the
    table again: the table is the one from before the import, the records
    of the rows before the failing one are in the store, and when there
    is such a record the table no longer shows the records of the
    store.  The ages, years and gpas of the file are such as are stored
    as bound. *)
Theorem aborted_import_stale_table
    (file_path : string) (file : csv_rows) (a : app) (e : exn) :
  file_stored file ->
  in_sync a ->
  fst (import_and_display file_path file a) = ImportError e ->
  table (snd (import_and_display file_path file a)) = table a
  /\ (exists added,
        student (store (snd (import_and_display file_path file a)))
        = (student (store a) ++ added)%list
        /\ (added <> [] -> ~ in_sync (snd (import_and_display file_path file a)))).
Proof.
  intros _ Hsync. unfold import_and_display.
  destruct (import_csv_reachable file_path file (store a))
    as [_ [added Hadd]].
  destruct (import_csv file_path file (store a)) as [[o | e'] db];
    cbn [snd] in Hadd.
  - destruct o; cbn [fst snd]; try discriminate. intros _.
    split; [reflexivity |]. exists added. split; [exact Hadd |].
    intros Hne H. unfold in_sync in *. cbn [table store] in H.
    rewrite Hsync in H.
    apply (f_equal (@List.length _)) in H. rewrite !length_map in H.
    rewrite (Permutation_length (order_by_name_perm (student (store a)))) in H.
    rewrite (Permutation_length (order_by_name_perm (student db))) in H.
    rewrite Hadd, length_app in H.
    destruct added; [contradiction Hne; reflexivity |].
    cbn [List.length] in H. lia.
  - cbn [fst snd]. intros _.
    split; [reflexivity |]. exists added. split; [exact Hadd |].
    intros Hne H. unfold in_sync in *. cbn [table store] in H.
    rewrite Hsync in H.
    apply (f_equal (@List.length _)) in H. rewrite !length_map in H.
    rewrite (Permutation_length (order_by_name_perm (student (store a)))) in H.
    rewrite (Permutation_length (order_by_name_perm (student db))) in H.
    rewrite Hadd, length_app in H.
    destruct added; [contradiction Hne; reflexivity |].
    cbn [List.length] in H. lia.
Qed.

Lemma aborted_import_stale_table_witness :
  ~ in_sync (snd (import_and_display "students.csv" file_with_short_row
                                     (start empty_database))).
Proof.
  destruct (aborted_import_stale_table
              "students.csv" file_with_short_row (start empty_database)
              AttributeError)
    as [_ [added [Hadd Hstale]]].
  - unfold file_stored, file_with_short_row. stored_rows.
  - reflexivity.
  - vm_compute. reflexivity.
  - apply Hstale. intros ->. vm_compute in Hadd. discriminate Hadd.
Defined.

(** ** A search that finds nothing *)

Lemma strip_empty (s : string) : strip s = "" <-> all_space s = true.
Proof.
  unfold strip. rewrite rstrip_empty. rewrite all_space_lstrip. reflexivity.
Qed.

(** X25: a search term that is empty or made of whitespace only is
    answered with the "Search Error" box of the empty search field; any
    other term whose text without the whitespace around it is the student
    id of no record is answered with the "Search Error" box of the student
    that is not found.  Store, table, selection and remembered record
    stay as they were in both cases. *)
Theorem search_student_finds_nothing (term : string) (a : app) :
  (all_space term = true ->
   search_student term a = (SearchError EmptySearchField, a))
  /\ (all_space term = false ->
      (forall r, In r (student (store a)) -> student_id r <> strip term) ->
      search_student term a = (SearchError (Message StudentNotFound), a)).
Proof.
  unfold search_student. split.
  - intros H. apply strip_empty in H. rewrite H. reflexivity.
  - intros H Hnone.
    assert (Ht : truthy (strip term) = true).
    { destruct (strip term) eqn:E; [| reflexivity].
      apply strip_empty in E. rewrite E in H. discriminate H. }
    rewrite Ht. cbn [negb].
    rewrite search_by_student_id_eq, (strip_not_blank _ Ht).
    assert (Hfind : find (has_student_id (strip term)) (student (store a))
                    = None).
    { apply find_none_iff. intros r Hr. apply String.eqb_neq, Hnone, Hr. }
    rewrite Hfind, app_same. reflexivity.
Qed.

(** ** The statistics after an add *)

Lemma count_status_app (s : string) (rows : list row) (r : row) :
  Z.of_nat (List.length (filter (fun x => (status x =? s)%string)
                                (rows ++ [r])))
  = Z.of_nat (List.length (filter (fun x => (status x =? s)%string) rows))
    + (if (status r =? s)%string then 1 else 0).
Proof.
  rewrite filter_app, length_app. cbn [filter].
  destruct (status r =? s)%string; cbn [List.length]; lia.
Qed.

(** X26: after a successful add the statistics count one record more; the
    record is counted as PASS or as FAIL, as [calculate_status] of its gpa
    says, and the other count stays. *)
Theorem add_then_statistics
    (sid nm : string) (ag : Z) (em dept : string) (g : float) (yr : Z)
    (db db' : database) (st st' : statistics) (s : string) :
  add_student_record sid nm ag em dept g yr db = (Ok true, db') ->
  fst (get_statistics db) = Ok st ->
  fst (get_statistics db') = Ok st' ->
  calculate_status (PyFloat g) = Ok s ->
  total st' = total st + 1
  /\ (s = "PASS" /\ pass st' = pass st + 1 /\ fail st' = fail st
      \/ s = "FAIL" /\ fail st' = fail st + 1 /\ pass st' = pass st).
Proof.
  rewrite add_student_record_eq.
  destruct (blank sid); [discriminate |].
  destruct (blank nm); [discriminate |].
  destruct (existsb _ _); [discriminate |].
  intros H. injection H as <-. rewrite !get_statistics_eq. cbn [fst].
  intros H H'. injection H as <-. injection H' as <-.
  rewrite calculate_status_float. intros Hs. injection Hs as <-.
  cbn [total pass fail]. unfold count_status. cbn [student].
  rewrite !count_status_app, length_app.
  unfold row_of. cbn [status List.length].
  split; [lia |].
  destruct (g <? Config.PASS_FAIL_THRESHOLD)%float; cbn [String.eqb Ascii.eqb].
  - right. split; [reflexivity |]. cbn. lia.
  - left. split; [reflexivity |]. cbn. lia.
Qed.

Lemma add_then_statistics_witness :
  total (mkStatistics 2 1 1 2.75) = total (mkStatistics 1 0 1 2.0) + 1
  /\ ("PASS" = "PASS"
      /\ pass (mkStatistics 2 1 1 2.75) = pass (mkStatistics 1 0 1 2.0) + 1
      /\ fail (mkStatistics 2 1 1 2.75) = fail (mkStatistics 1 0 1 2.0)
      \/ "PASS" = "FAIL"
         /\ fail (mkStatistics 2 1 1 2.75) = fail (mkStatistics 1 0 1 2.0) + 1
         /\ pass (mkStatistics 2 1 1 2.75) = pass (mkStatistics 1 0 1 2.0)).
Proof.
  apply (add_then_statistics "S2" "Bo" 22 "b@x.com" "Chemistry" 3.5 2025
                             ann_only ann_and_bo);
    vm_compute; reflexivity.
Defined.
